(** * Row-binary scalar codecs

    A shallow embedding of [clickhouse_connect/datatypes/standard.py]:
    the per-type [_from_row_binary] / [_to_row_binary] methods, the
    constructors that derive a codec from a [TypeDef], and the two
    module-level functions that rewrite class attributes
    ([fixed_string_handling], [uint64_handling]).

    Conventions.  A Python [int] is a [Z]; a [bytearray] is a [list byte];
    a [str] is a [string]; a buffer offset is a [Z], because the source
    hands it to the slice operator unchecked.  A call that may raise
    returns a [result].  Attributes stored on a class rather than on an
    instance live in [class_attrs], which every method that reads them
    receives explicitly. *)

From Stdlib Require Import ZArith List Lia Bool.
From Stdlib Require Import Strings.String Strings.Ascii Strings.Byte.
From Stdlib Require Import Numbers.DecimalString Numbers.HexadecimalString.
From Stdlib Require Import Numbers.DecimalPos.
From Stdlib Require Import Floats.SpecFloat.
Import ListNotations.

Local Open Scope Z_scope.

(** ** Exceptions and the error monad *)

(** The exceptions the modelled calls can raise. *)
Inductive exn : Set :=
  | IndexError
  | TypeError
  | ValueError
  | OverflowError
  | ArithmeticError
  | InvalidOperation
  | AddressValueError
  | UnicodeDecodeError
  | LookupError
  | UnknownTimeZoneError
  | ZeroDivisionError
  | RecursionError
  | StructError.

Inductive result (A : Type) : Type :=
  | Ok (a : A)
  | Raise (e : exn).

Arguments Ok {A} a.
Arguments Raise {A} e.

Definition bind {A B : Type} (r : result A) (k : A -> result B) : result B :=
  match r with
  | Ok a => k a
  | Raise e => Raise e
  end.

Notation "x <- r ;; k" := (bind r (fun x => k))
  (at level 61, r at next level, right associativity).

(** ** Sequences: the slice operator *)

(** Normalisation of one bound of [s[lo:hi]] for a sequence of length [n]:
    a negative bound counts from the end, and every bound is clipped to
    [0..n]. *)
Definition slice_index (n i : Z) : Z :=
  if i <? 0 then Z.max (i + n) 0 else Z.min i n.

Definition seq_len {A : Type} (s : list A) : Z := Z.of_nat (List.length s).

(** [s[lo:hi]]; a missing bound is [None].  Never raises. *)
Definition py_slice {A : Type} (s : list A) (lo hi : option Z) : list A :=
  let n := seq_len s in
  let a := match lo with Some i => slice_index n i | None => 0 end in
  let b := match hi with Some j => slice_index n j | None => n end in
  firstn (Z.to_nat (b - a)) (skipn (Z.to_nat a) s).

(** [s[lo:hi]] with both bounds present, as every buffer read writes it. *)
Definition slice (s : list byte) (lo hi : Z) : list byte :=
  py_slice s (Some lo) (Some hi).

(** ** Integers and bytes *)

Inductive byteorder : Set := little | big.

Definition byte_val (b : byte) : Z := Z.of_N (Byte.to_N b).

Definition byte_of_Z (z : Z) : byte :=
  match Byte.of_N (Z.to_N (z mod 256)) with
  | Some b => b
  | None => x00
  end.

Fixpoint le_unsigned (bs : list byte) : Z :=
  match bs with
  | [] => 0
  | b :: rest => byte_val b + 256 * le_unsigned rest
  end.

Fixpoint le_bytes (n : nat) (u : Z) : list byte :=
  match n with
  | O => []
  | S k => byte_of_Z (u mod 256) :: le_bytes k (u / 256)
  end.

Definition in_order (order : byteorder) (bs : list byte) : list byte :=
  match order with
  | little => bs
  | big => rev bs
  end.

(** [int.from_bytes(bs, order, signed=signed)]: total, and [0] on the empty
    sequence. *)
Definition int_from_bytes (bs : list byte) (order : byteorder) (signed : bool) : Z :=
  let u := le_unsigned (in_order order bs) in
  let m := 2 ^ (8 * seq_len bs) in
  if signed && (m <=? 2 * u) then u - m else u.

(** [v.to_bytes(length, order, signed=signed)].  A negative length is a
    [ValueError]; a value outside the range of [length] bytes is an
    [OverflowError] (CPython lets [-1] through at length [0]). *)
Definition int_to_bytes (v length : Z) (order : byteorder) (signed : bool)
  : result (list byte) :=
  if length <? 0 then Raise ValueError
  else
    let m := 2 ^ (8 * length) in
    let fits :=
      if signed
      then ((- m <=? 2 * v) && (2 * v <? m)) || ((length =? 0) && (v =? -1))
      else (0 <=? v) && (v <? m) in
    if fits
    then Ok (in_order order (le_bytes (Z.to_nat length) (v mod m)))
    else Raise OverflowError.

(** ** Type descriptors *)

Inductive value : Type :=
  | VInt (n : Z)
  | VStr (s : string).

Module TypeDef.

(** Modelled from the spec: [TypeDef] is declared in
    [clickhouse_connect/datatypes/registry.py], which is not among the
    sources; section 3 of the specification gives its fields.  The
    base-class constructor [ClickHouseType.__init__] lives in the same
    module and is taken to store nothing a codec method reads. *)
Record t : Type := {
  name : string;
  size : Z;
  values : list value;
  arg_str : string
}.

End TypeDef.

(** [values[i]] for a non-negative literal index. *)
Definition values_at (type_def : TypeDef.t) (i : nat) : result value :=
  match nth_error (TypeDef.values type_def) i with
  | Some v => Ok v
  | None => Raise IndexError
  end.

(** ** Class attributes *)

(** The functions bound to [FixedString] class attributes. *)
Inductive pyfun : Set :=
  | fixed_string_raw
  | fixed_string_decode
  | hex_string
  | binary_data_lambda.

(** How a function stored on the class is bound when looked up through an
    instance or the class. *)
Inductive descriptor : Set :=
  | staticmethod (f : pyfun)
  | classmethod (f : pyfun).

(** Every attribute of the module's classes that is read at call time and
    that a module-level function may rebind. *)
Record class_attrs : Type := {
  UInt64_signed : bool;
  FixedString_encoding : string;
  FixedString_transform : descriptor;
  FixedString_encode_error : descriptor
}.

(** The attributes as the class bodies define them. *)
Definition class_defaults : class_attrs := {|
  UInt64_signed := false;
  FixedString_encoding := "utf8";
  FixedString_transform := staticmethod fixed_string_raw;
  FixedString_encode_error := staticmethod fixed_string_raw
|}.

(** ** [Int], [UInt], [UInt64] *)

Inductive int_class : Set := Int_cls | UInt_cls.

(** The class attribute [signed] of [Int] and of its subclass [UInt]. *)
Definition cls_signed (c : int_class) : bool :=
  match c with
  | Int_cls => true
  | UInt_cls => false
  end.

Record Int : Type := {
  Int_class : int_class;
  Int_name_suffix : Z;
  Int_size : Z
}.

Definition Int_init (c : int_class) (type_def : TypeDef.t) : Int := {|
  Int_class := c;
  Int_name_suffix := TypeDef.size type_def;
  Int_size := TypeDef.size type_def / 8
|}.

Definition Int_from_row_binary (self : Int) (source : list byte) (loc : Z) : Z * Z :=
  (int_from_bytes (slice source loc (loc + Int_size self)) little
     (cls_signed (Int_class self)),
   loc + Int_size self).

Definition Int_to_row_binary (self : Int) (v : Z) (dest : list byte)
  : result (list byte) :=
  bs <- int_to_bytes v (Int_size self) little (cls_signed (Int_class self)) ;;
  Ok (dest ++ bs).

(** [UInt64] defines no constructor and no slots: an instance carries
    nothing of its own, and [self.signed] is found on the class. *)
Record UInt64 : Type := { UInt64_type_def : TypeDef.t }.

Definition UInt64_init (type_def : TypeDef.t) : UInt64 :=
  {| UInt64_type_def := type_def |}.

Definition UInt64_from_row_binary (cls : class_attrs) (self : UInt64)
    (source : list byte) (loc : Z) : Z * Z :=
  (int_from_bytes (slice source loc (loc + 8)) little (UInt64_signed cls),
   loc + 8).

Definition UInt64_to_row_binary (cls : class_attrs) (self : UInt64) (v : Z)
    (dest : list byte) : result (list byte) :=
  bs <- int_to_bytes v 8 little (UInt64_signed cls) ;;
  Ok (dest ++ bs).

(** ** [uint64_handling] *)

Definition is_upper (c : ascii) : bool :=
  let n := N_of_ascii c in ((65 <=? n) && (n <=? 90))%N.

Definition lower_char (c : ascii) : ascii :=
  if is_upper c then ascii_of_N (N_of_ascii c + 32) else c.

(** [str.lower()].  Only the letters [A]..[Z] are mapped; the one use in
    the source compares the result with ['signed'], and no character
    outside that range lowercases to one of its letters. *)
Fixpoint lower (s : string) : string :=
  match s with
  | EmptyString => EmptyString
  | String c rest => String (lower_char c) (lower rest)
  end.

Definition uint64_handling (method : string) (cls : class_attrs) : class_attrs := {|
  UInt64_signed := String.eqb (lower method) "signed";
  FixedString_encoding := FixedString_encoding cls;
  FixedString_transform := FixedString_transform cls;
  FixedString_encode_error := FixedString_encode_error cls
|}.

(** ** [Float32], [Float64]: the encode direction *)

Inductive float_format : Set := fmt_f | fmt_d.

(** What [struct.pack] can be handed by the encoders: a float, or a tuple. *)
Inductive pyarg : Type :=
  | PyFloat (x : spec_float)
  | PyTuple (items : list spec_float).

Section FloatCodecs.

(** The IEEE-754 serialisation performed inside [struct.pack] once it has
    a float in hand ([OverflowError] when format ['f'] cannot hold it). *)
Variable ieee754_pack : float_format -> spec_float -> result (list byte).

(** [struct.pack(fmt, arg)] for a single-item format: the item must be a
    number; a tuple is rejected with [struct.error]. *)
Definition struct_pack (fmt : float_format) (arg : pyarg) : result (list byte) :=
  match arg with
  | PyFloat x => ieee754_pack fmt x
  | PyTuple _ => Raise StructError
  end.

Definition Float32_to_row_binary (v : spec_float) (dest : list byte)
  : result (list byte) :=
  bs <- struct_pack fmt_f (PyTuple [v]) ;;
  Ok (dest ++ bs).

Definition Float64_to_row_binary (v : spec_float) (dest : list byte)
  : result (list byte) :=
  bs <- struct_pack fmt_d (PyTuple [v]) ;;
  Ok (dest ++ bs).

End FloatCodecs.

(** ** Text helpers *)

(** [str(n)] for an [int]. *)
Definition py_str_int (n : Z) : string :=
  DecimalString.NilZero.string_of_int (Z.to_int n).

(** [str(v)] for a [TypeDef] value. *)
Definition py_str_value (v : value) : string :=
  match v with
  | VInt n => py_str_int n
  | VStr s => s
  end.

(** [s[lo:hi]] on a [str]. *)
Definition str_slice (s : string) (lo hi : option Z) : string :=
  string_of_list_ascii (py_slice (list_ascii_of_string s) lo hi).

(** [sep.join(parts)]. *)
Fixpoint join (sep : string) (parts : list string) : string :=
  match parts with
  | [] => EmptyString
  | [p] => p
  | p :: rest => (p ++ sep ++ join sep rest)%string
  end.

(** ** [DateTime64] *)

(** A [tzinfo] object: its name and the UTC offset, in seconds, it reports
    for the instant [t] seconds after the epoch.  [datetime] refuses
    offsets of a day or more, so a usable [tzinfo] stays strictly inside
    that bound. *)
Record tzinfo : Type := {
  tzname : string;
  utcoffset : Z -> Z;
  utcoffset_bound : forall t, -86400 < utcoffset t < 86400
}.

Definition timezone_utc : tzinfo := {|
  tzname := "UTC";
  utcoffset := fun _ => 0;
  utcoffset_bound := fun _ => conj eq_refl eq_refl
|}.

(** An aware [datetime]: the instant as whole seconds since the epoch plus
    a [microsecond] field, and the zone it is expressed in. *)
Record datetime : Type := {
  epoch_seconds : Z;
  microsecond : Z;
  dt_tzinfo : tzinfo
}.

(** Local wall-clock seconds of 0001-01-01T00:00:00 and
    9999-12-31T23:59:59, the limits of [datetime]. *)
Definition datetime_min : Z := -62135596800.
Definition datetime_max : Z := 253402300799.

Definition in_datetime_range (local : Z) : bool :=
  (datetime_min <=? local) && (local <=? datetime_max).

(** [datetime.fromtimestamp(seconds, tz)] for an [int] timestamp.  The
    instant is first broken down in UTC: outside years 1..9999 that fails
    (a [ValueError]; for timestamps the C library cannot break down at all
    the interpreter reports an [OSError] or [OverflowError] instead, which
    is not told apart here).  The zone's [fromutc] then adds the offset,
    and a local time outside years 1..9999 is an [OverflowError]. *)
Definition fromtimestamp (seconds : Z) (tz : tzinfo) : result datetime :=
  if in_datetime_range seconds then
    if in_datetime_range (seconds + utcoffset tz seconds)
    then Ok {| epoch_seconds := seconds; microsecond := 0; dt_tzinfo := tz |}
    else Raise OverflowError
  else Raise ValueError.

(** [dt + timedelta(microseconds=m)]: the sum is normalised so that
    [microsecond] stays in [0, 10^6), the zone is kept, and a result outside
    the range of [datetime] is an [OverflowError]. *)
Definition datetime_add_microseconds (dt : datetime) (m : Z) : result datetime :=
  let total := microsecond dt + m in
  let secs := epoch_seconds dt + total / 1000000 in
  if in_datetime_range (secs + utcoffset (dt_tzinfo dt) (epoch_seconds dt))
  then Ok {| epoch_seconds := secs;
             microsecond := total mod 1000000;
             dt_tzinfo := dt_tzinfo dt |}
  else Raise OverflowError.

(** [a // b] on [int]s: floor division. *)
Definition floordiv (a b : Z) : result Z :=
  if b =? 0 then Raise ZeroDivisionError else Ok (a / b).

(** What [10 ** n] evaluates to: an [int] for a non-negative [n], and for
    a negative [n] a float, which is kept as the exponent it was computed
    from. *)
Inductive power_of_ten : Type :=
  | IntPower (p : Z)
  | FloatPower (exponent : Z).

(** [10 ** v]. *)
Definition pow10 (v : value) : result power_of_ten :=
  match v with
  | VInt n => if n <? 0 then Ok (FloatPower n) else Ok (IntPower (10 ^ n))
  | VStr _ => Raise TypeError
  end.

Record DateTime64 : Type := {
  DateTime64_name_suffix : string;
  DateTime64_prec : power_of_ten;
  DateTime64_tzinfo : tzinfo
}.

Section TimeZones.

(** [pytz.timezone(name)], a lookup in the zone database. *)
Variable pytz_timezone : string -> result tzinfo.

Definition DateTime64_init (type_def : TypeDef.t) : result DateTime64 :=
  v0 <- values_at type_def 0 ;;
  prec <- pow10 v0 ;;
  tz <- (if 1 <? seq_len (TypeDef.values type_def)
         then v1 <- values_at type_def 1 ;;
              match v1 with
              | VStr s => pytz_timezone (str_slice s (Some 1) (Some (-1)))
              | VInt _ => Raise TypeError
              end
         else Ok timezone_utc) ;;
  Ok {| DateTime64_name_suffix := TypeDef.arg_str type_def;
        DateTime64_prec := prec;
        DateTime64_tzinfo := tz |}.

End TimeZones.

Section DateTime64Decoder.

(** The body of [_from_row_binary] when [self.prec] is the float
    [10 ** exponent]: the two floor divisions give floats, and
    [fromtimestamp] and [timedelta] receive floats.  Given the exponent,
    the tick count and the zone it yields an instant or raises; that float
    evaluation is not interpreted in this development. *)
Variable float_prec_decode : Z -> Z -> tzinfo -> result datetime.

Definition DateTime64_from_row_binary (self : DateTime64) (source : list byte)
    (loc : Z) : result (datetime * Z) :=
  let ticks := int_from_bytes (slice source loc (loc + 8)) little true in
  match DateTime64_prec self with
  | IntPower prec =>
      seconds <- floordiv ticks prec ;;
      dt_sec <- fromtimestamp seconds (DateTime64_tzinfo self) ;;
      microseconds <- floordiv ((ticks - seconds * prec) * 1000000) prec ;;
      dt <- datetime_add_microseconds dt_sec microseconds ;;
      Ok (dt, loc + 8)
  | FloatPower exponent =>
      dt <- float_prec_decode exponent ticks (DateTime64_tzinfo self) ;;
      Ok (dt, loc + 8)
  end.

End DateTime64Decoder.

(** ** [FixedString] *)

(** What a [FixedString] decode hands back, and what its helper functions
    receive: a byte string, a text, or the class object itself. *)
Inductive pyobj : Type :=
  | Bytes (b : list byte)
  | Str (s : string)
  | Cls.

Definition hex_digit (n : Z) : ascii :=
  nth (Z.to_nat n) (list_ascii_of_string "0123456789abcdef") "0"%char.

(** [hexlify(value).decode('utf8')]: two lowercase digits per byte. *)
Fixpoint hexlify (bs : list byte) : string :=
  match bs with
  | [] => EmptyString
  | b :: rest =>
      String (hex_digit (byte_val b / 16))
        (String (hex_digit (byte_val b mod 16)) (hexlify rest))
  end.

(** Positional parameters each function declares. *)
Definition arity (f : pyfun) : nat :=
  match f with
  | fixed_string_raw => 1      (* value *)
  | fixed_string_decode => 2   (* cls, value *)
  | hex_string => 2            (* cls, value *)
  | binary_data_lambda => 1    (* cls *)
  end.

(** Looking a descriptor up and calling it with [args]: a [staticmethod]
    passes the arguments through, a [classmethod] puts the class first. *)
Definition bound_call (d : descriptor) (args : list pyobj) : pyfun * list pyobj :=
  match d with
  | staticmethod f => (f, args)
  | classmethod f => (f, Cls :: args)
  end.

(** Depth at which the interpreter gives up with [RecursionError]. *)
Definition recursion_limit : nat := 1000.

Section FixedStringCodec.

(** [value.decode(encoding)] of the codec registry: the text, or
    [UnicodeDecodeError] on bytes invalid in that encoding, or
    [LookupError] for an unknown encoding. *)
Variable bytes_decode : list byte -> string -> result string.

(** Calling the function [f] on [args] with [depth] frames left.  A call
    with the wrong number of positional arguments is a [TypeError]. *)
Fixpoint call (depth : nat) (cls : class_attrs) (f : pyfun) (args : list pyobj)
  : result pyobj :=
  match depth with
  | O => Raise RecursionError
  | S d =>
      if negb (Nat.eqb (List.length args) (arity f)) then Raise TypeError
      else
        match f, args with
        | fixed_string_raw, [v] => Ok v
        | fixed_string_decode, [_; Bytes v] =>
            match bytes_decode v (FixedString_encoding cls) with
            | Ok text => Ok (Str text)
            | Raise UnicodeDecodeError =>
                let (g, args') :=
                  bound_call (FixedString_encode_error cls) [Bytes v] in
                call d cls g args'
            | Raise e => Raise e
            end
        | hex_string, [_; Bytes v] => Ok (Str (hexlify v))
        | binary_data_lambda, [_] => Ok (Str "<binary data>")
        | _, _ => Raise TypeError
        end
  end.

Record FixedString : Type := {
  FixedString_size : value;
  FixedString_name_suffix : string
}.

Definition FixedString_init (type_def : TypeDef.t) : result FixedString :=
  sz <- values_at type_def 0 ;;
  Ok {| FixedString_size := sz;
        FixedString_name_suffix := ("(" ++ py_str_value sz ++ ")")%string |}.

Definition FixedString_from_row_binary (cls : class_attrs) (self : FixedString)
    (source : list byte) (loc : Z) : result (pyobj * Z) :=
  match FixedString_size self with
  | VStr _ => Raise TypeError
  | VInt n =>
      let (f, args) :=
        bound_call (FixedString_transform cls) [Bytes (slice source loc (loc + n))] in
      v <- call recursion_limit cls f args ;;
      Ok (v, loc + n)
  end.

End FixedStringCodec.

Definition with_transform (cls : class_attrs) (d : descriptor) : class_attrs := {|
  UInt64_signed := UInt64_signed cls;
  FixedString_encoding := FixedString_encoding cls;
  FixedString_transform := d;
  FixedString_encode_error := FixedString_encode_error cls
|}.

(** [fixed_string_handling(method, encoding, encoding_error)]; the defaults
    of the last two parameters are ['utf8'] and ['hex']. *)
Definition fixed_string_handling (method encoding encoding_error : string)
    (cls : class_attrs) : class_attrs :=
  if String.eqb method "raw" then
    with_transform cls (staticmethod fixed_string_raw)
  else if String.eqb method "decode" then
    {| UInt64_signed := UInt64_signed cls;
       FixedString_encoding := encoding;
       FixedString_transform := classmethod fixed_string_decode;
       FixedString_encode_error :=
         if String.eqb encoding_error "hex"
         then classmethod hex_string
         else classmethod binary_data_lambda |}
  else if String.eqb method "hex" then
    with_transform cls (staticmethod hex_string)
  else cls.

(** *** UTF-8, the default [_encoding] *)

Definition is_cont (b : Z) : bool := (128 <=? b) && (b <=? 191).

(** Well-formed UTF-8 as the strict decoder accepts it: shortest forms
    only, no surrogates, nothing above U+10FFFF. *)
Fixpoint utf8_valid (bs : list Z) : bool :=
  match bs with
  | [] => true
  | b0 :: r0 =>
      if b0 <=? 127 then utf8_valid r0
      else
        match r0 with
        | [] => false
        | b1 :: r1 =>
            if (194 <=? b0) && (b0 <=? 223) then is_cont b1 && utf8_valid r1
            else
              match r1 with
              | [] => false
              | b2 :: r2 =>
                  if (224 <=? b0) && (b0 <=? 239) then
                    (if b0 =? 224 then (160 <=? b1) && (b1 <=? 191)
                     else if b0 =? 237 then (128 <=? b1) && (b1 <=? 159)
                     else is_cont b1)
                    && is_cont b2 && utf8_valid r2
                  else
                    match r2 with
                    | [] => false
                    | b3 :: r3 =>
                        if (240 <=? b0) && (b0 <=? 244) then
                          (if b0 =? 240 then (144 <=? b1) && (b1 <=? 191)
                           else if b0 =? 244 then (128 <=? b1) && (b1 <=? 143)
                           else is_cont b1)
                          && is_cont b2 && is_cont b3 && utf8_valid r3
                        else false
                    end
              end
        end
  end.

Section CodecRegistry.

(** [value.decode(encoding)] on a non-empty [value] for every encoding
    name other than the two spelled out below, as the interpreter's codec
    registry answers it. *)
Variable other_codecs : list byte -> string -> result string.

(** [value.decode(encoding)].  An empty [value] gives the empty text
    without the encoding being looked up (outside the interpreter's
    development mode).  Under the names ['utf8'] and ['utf-8'] the bytes
    go through the strict UTF-8 decoder; a decoded text is kept as its
    UTF-8 bytes.  Every other name is left to [other_codecs]. *)
Definition utf8_bytes_decode (value : list byte) (encoding : string)
  : result string :=
  match value with
  | [] => Ok EmptyString
  | _ :: _ =>
      if String.eqb encoding "utf8" || String.eqb encoding "utf-8" then
        if utf8_valid (map byte_val value)
        then Ok (string_of_list_byte value)
        else Raise UnicodeDecodeError
      else other_codecs value encoding
  end.

End CodecRegistry.

(** ** [Decimal] *)

(** A [decimal.Decimal]: sign, coefficient and exponent, as [as_tuple]
    shows them; its numeric value is [(-1)^sign * coefficient * 10^exponent]. *)
Record PyDecimal : Type := {
  dec_sign : bool;
  dec_coefficient : Z;
  dec_exponent : Z
}.

Definition is_digit (c : ascii) : bool :=
  let n := N_of_ascii c in ((48 <=? n) && (n <=? 57))%N.

Definition digit_val (c : ascii) : Z := Z.of_N (N_of_ascii c) - 48.

(** The integer written by a string of decimal digits ([0] for none). *)
Definition int_of_digits (cs : list ascii) : Z :=
  fold_left (fun acc c => 10 * acc + digit_val c) cs 0.

Fixpoint take_digits (cs : list ascii) : list ascii :=
  match cs with
  | c :: rest => if is_digit c then c :: take_digits rest else []
  | [] => []
  end.

Fixpoint drop_digits (cs : list ascii) : list ascii :=
  match cs with
  | c :: rest => if is_digit c then drop_digits rest else cs
  | [] => []
  end.

(** [decimal.Decimal(text)] on the plain numerals the decoder writes: an
    optional sign, digits, and optionally a point followed by digits, with
    at least one digit overall.  Anything else is [InvalidOperation]
    (exponents, infinities and NaNs, which contain a letter, never come out
    of the decoder's format string). *)
Definition Decimal_of_string (text : string) : result PyDecimal :=
  let cs := list_ascii_of_string text in
  let (sign, body) :=
    match cs with
    | "-"%char :: r => (true, r)
    | "+"%char :: r => (false, r)
    | _ => (false, cs)
    end in
  let intpart := take_digits body in
  match drop_digits body with
  | [] =>
      match intpart with
      | [] => Raise InvalidOperation
      | _ => Ok {| dec_sign := sign;
                   dec_coefficient := int_of_digits intpart;
                   dec_exponent := 0 |}
      end
  | "."%char :: fracpart =>
      if forallb is_digit fracpart
         && negb (Nat.eqb (List.length (intpart ++ fracpart)) 0)
      then Ok {| dec_sign := sign;
                 dec_coefficient := int_of_digits (intpart ++ fracpart);
                 dec_exponent := - seq_len fracpart |}
      else Raise InvalidOperation
  | _ => Raise InvalidOperation
  end.

Record Decimal : Type := {
  Decimal_name_suffix : string;
  Decimal_prec : value;
  Decimal_size : Z
}.

(** The backing width, in bits, chosen for a declared precision. *)
Definition Decimal_tier (prec : Z) : Z :=
  if prec <? 10 then 32
  else if prec <? 19 then 64
  else if prec <? 39 then 128
  else 256.

Definition Decimal_init (type_def : TypeDef.t) : result Decimal :=
  let size := TypeDef.size type_def in
  if size =? 0 then
    v0 <- values_at type_def 0 ;;
    v1 <- values_at type_def 1 ;;
    match v0 with
    | VStr _ => Raise TypeError
    | VInt prec =>
        if (prec <? 1) || (79 <? prec) then Raise ArithmeticError
        else Ok {| Decimal_name_suffix := TypeDef.arg_str type_def;
                   Decimal_prec := v1;
                   Decimal_size := Decimal_tier prec / 8 |}
    end
  else
    v0 <- values_at type_def 0 ;;
    Ok {| Decimal_name_suffix :=
            (py_str_int size ++ "(" ++ py_str_value v0 ++ ")")%string;
          Decimal_prec := v0;
          Decimal_size := size / 8 |}.

(** The integer the decoder reads: [int.from_bytes(..., 'little')], with no
    [signed] argument, hence unsigned. *)
Definition Decimal_unscaled (self : Decimal) (source : list byte) (loc : Z) : Z :=
  int_from_bytes (slice source loc (loc + Decimal_size self)) little false.

(** The text the decoder hands to [decimal.Decimal]:
    [f'{neg}{digits[:-self.prec]}.{digits[-self.prec:]}']. *)
Definition Decimal_text (self : Decimal) (source : list byte) (loc : Z)
  : result string :=
  let unscaled := Decimal_unscaled self source loc in
  let (neg, unscaled) :=
    if unscaled <=? 0 then ("-"%string, - unscaled)
    else (EmptyString, unscaled) in
  let digits := py_str_int unscaled in
  match Decimal_prec self with
  | VStr _ => Raise TypeError
  | VInt prec =>
      Ok (neg ++ str_slice digits None (Some (- prec)) ++ "."
              ++ str_slice digits (Some (- prec)) None)%string
  end.

Definition Decimal_from_row_binary (self : Decimal) (source : list byte)
    (loc : Z) : result (PyDecimal * Z) :=
  text <- Decimal_text self source loc ;;
  d <- Decimal_of_string text ;;
  Ok (d, loc + Decimal_size self).

(** ** [IPv4], [IPv6] *)

(** [str(IPv4Address(n))]: the four bytes of [n], most significant first. *)
Definition str_IPv4Address (n : Z) : result string :=
  if (0 <=? n) && (n <? 2 ^ 32) then
    Ok (join "." (map (fun k => py_str_int ((n / 2 ^ (8 * k)) mod 256))
                      [3; 2; 1; 0]))
  else Raise AddressValueError.

(** ['%x' % n]. *)
Definition py_hex (n : Z) : string :=
  HexadecimalString.NilZero.string_of_uint (N.to_hex_uint (Z.to_N n)).

(** The eight 16-bit groups of [n], most significant first, each as ['%x']. *)
Definition hextets_of (n : Z) : list string :=
  map (fun k => py_hex ((n / 2 ^ (16 * k)) mod 65536)) [7; 6; 5; 4; 3; 2; 1; 0].

(** State of the scan in [_compress_hextets]:
    best start, best length, current start, current length. *)
Definition zero_run_scan (hextets : list string) : Z * Z * Z * Z :=
  fst (fold_left
         (fun (st : (Z * Z * Z * Z) * Z) (hextet : string) =>
            let '((best_start, best_len, cur_start, cur_len), index) := st in
            if String.eqb hextet "0" then
              let cur_len := cur_len + 1 in
              let cur_start := if cur_start =? -1 then index else cur_start in
              if cur_len >? best_len
              then ((cur_start, cur_len, cur_start, cur_len), index + 1)
              else ((best_start, best_len, cur_start, cur_len), index + 1)
            else ((best_start, best_len, -1, 0), index + 1))
         hextets ((-1, 0, -1, 0), 0)).

(** [IPv6Address._compress_hextets]: the leftmost longest run of two or
    more zero groups is replaced by an empty group, padded with another
    empty group at either end of the address. *)
Definition compress_hextets (hextets : list string) : list string :=
  let '(best_start, best_len, _, _) := zero_run_scan hextets in
  if best_len >? 1 then
    let best_end := best_start + best_len in
    let hextets :=
      if best_end =? seq_len hextets
      then hextets ++ [EmptyString] else hextets in
    let hextets :=
      firstn (Z.to_nat best_start) hextets ++ [EmptyString]
        ++ skipn (Z.to_nat best_end) hextets in
    if best_start =? 0 then EmptyString :: hextets else hextets
  else hextets.

(** [str(IPv6Address(n))]. *)
Definition str_IPv6Address (n : Z) : result string :=
  if (0 <=? n) && (n <? 2 ^ 128) then
    Ok (join ":" (compress_hextets (hextets_of n)))
  else Raise AddressValueError.

Definition IPv4_from_row_binary (source : list byte) (loc : Z)
  : result (string * Z) :=
  text <- str_IPv4Address (int_from_bytes (slice source loc (loc + 4)) little false) ;;
  Ok (text, loc + 4).

Definition IPv6_from_row_binary (source : list byte) (loc : Z)
  : result (string * Z) :=
  let end_ := loc + 16 in
  let int_value := int_from_bytes (slice source loc end_) big false in
  if Z.land int_value 0xFFFF00000000 =? 0xFFFF00000000 then
    text <- str_IPv4Address (Z.land int_value 0xFFFFFFFF) ;;
    Ok (text, end_)
  else
    text <- str_IPv6Address (int_from_bytes (slice source loc end_) big false) ;;
    Ok (text, end_).

(** ** Concrete inputs used below *)

Definition bytes_of (zs : list Z) : list byte := map byte_of_Z zs.

Definition type_def_of (sz : Z) (vs : list value) : TypeDef.t :=
  {| TypeDef.name := EmptyString; TypeDef.size := sz;
     TypeDef.values := vs; TypeDef.arg_str := EmptyString |}.

(** ** Indexing *)

(** [s[i]] on a [bytearray]: a negative index counts from the end, and an
    index outside the sequence is an [IndexError]. *)
Definition py_index (s : list byte) (i : Z) : result byte :=
  let n := seq_len s in
  let j := if i <? 0 then i + n else i in
  if (0 <=? j) && (j <? n) then
    match nth_error s (Z.to_nat j) with
    | Some b => Ok b
    | None => Raise IndexError
    end
  else Raise IndexError.

(** ** [Boolean], [Bool] *)

(** [Bool] subclasses [Boolean] without a body, so both run this method. *)
Definition Boolean_from_row_binary (source : list byte) (loc : Z)
  : result (bool * Z) :=
  b <- py_index source loc ;;
  Ok (byte_val b >? 0, loc + 1).

(** ** [Float32], [Float64]: the decode direction *)

(** Bytes one item of the format occupies. *)
Definition format_size (fmt : float_format) : Z :=
  match fmt with
  | fmt_f => 4
  | fmt_d => 8
  end.

Section FloatDecoders.

(** The IEEE-754 reading [struct.unpack] performs on a buffer of the right
    size. *)
Variable ieee754_unpack : float_format -> list byte -> spec_float.

(** [struct.unpack(fmt, buffer)] for a single-item format: a one-element
    tuple, or [struct.error] unless the buffer has exactly the size of the
    format. *)
Definition struct_unpack (fmt : float_format) (buffer : list byte)
  : result (list spec_float) :=
  if seq_len buffer =? format_size fmt
  then Ok [ieee754_unpack fmt buffer]
  else Raise StructError.

(** [t[0]] on a tuple. *)
Definition tuple_first (t : list spec_float) : result spec_float :=
  match t with
  | x :: _ => Ok x
  | [] => Raise IndexError
  end.

Definition Float32_from_row_binary (source : list byte) (loc : Z)
  : result (spec_float * Z) :=
  t <- struct_unpack fmt_f (slice source loc (loc + 4)) ;;
  x <- tuple_first t ;;
  Ok (x, loc + 4).

Definition Float64_from_row_binary (source : list byte) (loc : Z)
  : result (spec_float * Z) :=
  t <- struct_unpack fmt_d (slice source loc (loc + 8)) ;;
  x <- tuple_first t ;;
  Ok (x, loc + 8).

End FloatDecoders.

(** ** [DateTime], [Date], [Date32] *)

(** [int(value.timestamp())] for an aware [datetime]: the instant in
    seconds, truncated toward zero.  [timestamp()] is a float, the
    correctly rounded quotient of the microsecond count by [10^6]; below
    [2^32] in magnitude that rounding never reaches the next whole second,
    so the truncation is the exact one, and from [2^32] on both encoders
    below overflow whichever neighbour the float picks. *)
Definition int_timestamp (v : datetime) : Z :=
  Z.quot (epoch_seconds v * 1000000 + microsecond v) 1000000.

Record DateTime : Type := { DateTime_tzinfo : tzinfo }.

Section DateTimeZones.

Variable pytz_timezone : string -> result tzinfo.

Definition DateTime_init (type_def : TypeDef.t) : result DateTime :=
  match TypeDef.values type_def with
  | [] => Ok {| DateTime_tzinfo := timezone_utc |}
  | VStr s :: _ =>
      tz <- pytz_timezone (str_slice s (Some 1) (Some (-1))) ;;
      Ok {| DateTime_tzinfo := tz |}
  | VInt _ :: _ => Raise TypeError
  end.

End DateTimeZones.

Definition DateTime_from_row_binary (self : DateTime) (source : list byte)
    (loc : Z) : result (datetime * Z) :=
  let epoch := int_from_bytes (slice source loc (loc + 4)) little false in
  dt <- fromtimestamp epoch (DateTime_tzinfo self) ;;
  Ok (dt, loc + 4).

Definition DateTime_to_row_binary (v : datetime) (dest : list byte)
  : result (list byte) :=
  bs <- int_to_bytes (int_timestamp v) 4 little true ;;
  Ok (dest ++ bs).

(** A calendar [date], as the number of days from 1970-01-01. *)
Record date : Type := { days_from_epoch : Z }.

(** 0001-01-01 and 9999-12-31, the limits of [date]. *)
Definition date_min : Z := -719162.
Definition date_max : Z := 2932896.

(** [dt.date()]: the calendar day of the local time. *)
Definition datetime_date (dt : datetime) : date :=
  {| days_from_epoch :=
       (epoch_seconds dt + utcoffset (dt_tzinfo dt) (epoch_seconds dt)) / 86400 |}.

Definition Date_from_row_binary (source : list byte) (loc : Z)
  : result (date * Z) :=
  let epoch_days := int_from_bytes (slice source loc (loc + 2)) little false in
  dt <- fromtimestamp (epoch_days * 86400) timezone_utc ;;
  Ok (datetime_date dt, loc + 2).

Definition Date_to_row_binary (v : datetime) (dest : list byte)
  : result (list byte) :=
  bs <- int_to_bytes (int_timestamp v / 86400) 2 little true ;;
  Ok (dest ++ bs).

(** [d + timedelta(days)]: [timedelta] refuses more than 999999999 days
    either way, and a sum outside the range of [date] is refused as well,
    both with [OverflowError]. *)
Definition date_add_days (d : date) (days : Z) : result date :=
  if (Z.abs days <=? 999999999)
     && (date_min <=? days_from_epoch d + days)
     && (days_from_epoch d + days <=? date_max)
  then Ok {| days_from_epoch := days_from_epoch d + days |}
  else Raise OverflowError.

(** The class attribute [Date32.start_date]. *)
Definition Date32_start_date : date := {| days_from_epoch := 0 |}.

Definition Date32_from_row_binary (source : list byte) (loc : Z)
  : result (date * Z) :=
  let days := int_from_bytes (slice source loc (loc + 4)) little true in
  d <- date_add_days Date32_start_date days ;;
  Ok (d, loc + 4).

(** ** [UUID] *)

(** A [uuid.UUID], as its sixteen bytes in standard order. *)
Record UUID_value : Type := { uuid_bytes : list byte }.

(** [uuid.UUID(bytes=b)]: anything but sixteen bytes is a [ValueError]. *)
Definition uuid_UUID (b : list byte) : result UUID_value :=
  if seq_len b =? 16 then Ok {| uuid_bytes := b |} else Raise ValueError.

Definition UUID_from_row_binary (source : list byte) (loc : Z)
  : result (UUID_value * Z) :=
  let int_high := int_from_bytes (slice source loc (loc + 8)) little false in
  let int_low := int_from_bytes (slice source (loc + 8) (loc + 16)) little false in
  high <- int_to_bytes int_high 8 big false ;;
  low <- int_to_bytes int_low 8 big false ;;
  u <- uuid_UUID (high ++ low) ;;
  Ok (u, loc + 16).

(** ** Dispatch over the integer codecs *)

(** The registry hands out either an [Int]/[UInt] instance or a [UInt64]
    instance; a call of [_from_row_binary] or [_to_row_binary] on it runs
    the method of its class. *)
Inductive int_codec : Type :=
  | Int_codec (self : Int)
  | UInt64_codec (self : UInt64).

Definition codec_width (c : int_codec) : Z :=
  match c with
  | Int_codec self => Int_size self
  | UInt64_codec _ => 8
  end.

Definition codec_signed (cls : class_attrs) (c : int_codec) : bool :=
  match c with
  | Int_codec self => cls_signed (Int_class self)
  | UInt64_codec _ => UInt64_signed cls
  end.

Definition from_row_binary (cls : class_attrs) (c : int_codec)
    (source : list byte) (loc : Z) : Z * Z :=
  match c with
  | Int_codec self => Int_from_row_binary self source loc
  | UInt64_codec self => UInt64_from_row_binary cls self source loc
  end.

Definition to_row_binary (cls : class_attrs) (c : int_codec) (v : Z)
    (dest : list byte) : result (list byte) :=
  match c with
  | Int_codec self => Int_to_row_binary self v dest
  | UInt64_codec self => UInt64_to_row_binary cls self v dest
  end.

(** ** Notions the properties are stated with *)

(** [v] is representable in [bits] bits: two's complement when [signed]. *)
Definition representable (bits : Z) (signed : bool) (v : Z) : Prop :=
  if signed then - 2 ^ (bits - 1) <= v < 2 ^ (bits - 1)
  else 0 <= v < 2 ^ bits.



(** The precision a [TypeDef] declares: the first of the two arguments of
    [Decimal(P, S)].  The fixed-width spellings ([Decimal32(S)] and the
    like, with a non-zero [size]) declare a scale only. *)
Definition declared_precision (type_def : TypeDef.t) : option Z :=
  if TypeDef.size type_def =? 0 then
    match TypeDef.values type_def with
    | VInt prec :: _ :: _ => Some prec
    | _ => None
    end
  else None.

(** The sixteen bytes of an IPv4-mapped IPv6 address holding [v4]. *)
Definition v4_mapped (v4 : list byte) : list byte :=
  repeat x00 10 ++ [xff; xff] ++ v4.

(* ================================================================== *)
(** * Properties *)

(** ** Bytes and integers *)

Lemma byte_val_range (b : byte) : 0 <= byte_val b < 256.
Proof.
  unfold byte_val. pose proof (Byte.to_N_bounded b). lia.
Qed.

Lemma byte_val_of_Z (z : Z) : byte_val (byte_of_Z z) = z mod 256.
Proof.
  unfold byte_val, byte_of_Z.
  assert (Hr : 0 <= z mod 256 < 256) by (apply Z.mod_pos_bound; lia).
  destruct (Byte.of_N (Z.to_N (z mod 256))) as [b|] eqn:E.
  - apply Byte.to_of_N in E. rewrite E. lia.
  - apply Byte.of_N_None_iff in E. lia.
Qed.

Lemma seq_len_nonneg {A : Type} (s : list A) : 0 <= seq_len s.
Proof. unfold seq_len. lia. Qed.

Lemma seq_len_cons {A : Type} (a : A) (s : list A) :
  seq_len (a :: s) = 1 + seq_len s.
Proof. unfold seq_len. cbn [List.length]. lia. Qed.

Lemma le_unsigned_bound (bs : list byte) :
  0 <= le_unsigned bs < 2 ^ (8 * seq_len bs).
Proof.
  induction bs as [|b rest IH].
  - cbn. lia.
  - rewrite seq_len_cons. cbn [le_unsigned].
    pose proof (byte_val_range b). pose proof (seq_len_nonneg rest).
    replace (8 * (1 + seq_len rest)) with (8 + 8 * seq_len rest) by lia.
    rewrite Z.pow_add_r by lia. change (2 ^ 8) with 256. lia.
Qed.

Lemma length_le_bytes (n : nat) (u : Z) : List.length (le_bytes n u) = n.
Proof.
  revert u. induction n as [|n IH]; intros u; cbn; [reflexivity|].
  now rewrite IH.
Qed.

Lemma le_unsigned_le_bytes (n : nat) (u : Z) :
  0 <= u < 2 ^ (8 * Z.of_nat n) -> le_unsigned (le_bytes n u) = u.
Proof.
  revert u. induction n as [|n IH]; intros u Hu.
  - cbn in *. lia.
  - cbn [le_bytes le_unsigned]. rewrite byte_val_of_Z, Z.mod_mod by lia.
    rewrite IH.
    + pose proof (Z.div_mod u 256). lia.
    + replace (8 * Z.of_nat (S n)) with (8 + 8 * Z.of_nat n) in Hu by lia.
      rewrite Z.pow_add_r in Hu by lia. change (2 ^ 8) with 256 in Hu.
      split; [apply Z.div_pos; lia|].
      apply Z.div_lt_upper_bound; lia.
Qed.

(** Decoding what [to_bytes] wrote gives the value back. *)
Lemma int_from_bytes_to_bytes (v w : Z) (signed : bool) (bs : list byte) :
  int_to_bytes v w little signed = Ok bs ->
  (w = 0 -> v <> -1) ->
  seq_len bs = w /\ int_from_bytes bs little signed = v.
Proof.
  unfold int_to_bytes. intros H Hq.
  destruct (w <? 0) eqn:Hw; [discriminate|]. apply Z.ltb_ge in Hw.
  set (m := 2 ^ (8 * w)) in *.
  assert (Hm : 0 < m) by (apply Z.pow_pos_nonneg; lia).
  match type of H with (if ?c then _ else _) = _ => destruct c eqn:Hfits end;
    [|discriminate].
  injection H as <-. cbn [in_order].
  assert (Hlen : seq_len (le_bytes (Z.to_nat w) (v mod m)) = w).
  { unfold seq_len. rewrite length_le_bytes. lia. }
  split; [exact Hlen|].
  unfold int_from_bytes. cbn [in_order]. rewrite Hlen. fold m.
  rewrite le_unsigned_le_bytes
    by (rewrite Z2Nat.id by lia; apply Z.mod_pos_bound; exact Hm).
  destruct signed.
  - assert (Hr : - m <= 2 * v < m).
    { apply orb_true_iff in Hfits as [Hf|Hf].
      - apply andb_true_iff in Hf as [Ha Hb]. lia.
      - apply andb_true_iff in Hf as [Ha Hb]. lia. }
    cbn [andb].
    destruct (Z_lt_le_dec v 0) as [Hneg|Hpos].
    + assert (E : v mod m = v + m).
      { symmetry. apply (Z.mod_unique v m (-1)); lia. }
      rewrite E. destruct (m <=? 2 * (v + m)) eqn:Hc; [lia|].
      apply Z.leb_gt in Hc. lia.
    + rewrite Z.mod_small by lia.
      destruct (m <=? 2 * v) eqn:Hc; [apply Z.leb_le in Hc; lia|reflexivity].
  - apply andb_true_iff in Hfits as [Ha Hb].
    cbn [andb]. apply Z.mod_small. lia.
Qed.

(** ** Slices *)

Lemma slice_appended (dest bs : list byte) :
  slice (dest ++ bs) (seq_len dest) (seq_len dest + seq_len bs) = bs.
Proof.
  unfold slice, py_slice, slice_index, seq_len.
  rewrite length_app.
  destruct (Z.ltb_spec (Z.of_nat (List.length dest)) 0); [lia|].
  destruct (Z.ltb_spec
              (Z.of_nat (List.length dest) + Z.of_nat (List.length bs)) 0);
    [lia|].
  rewrite Z.min_l by lia. rewrite Z.min_l by lia.
  rewrite Nat2Z.id.
  replace (Z.to_nat _) with (List.length bs) by lia.
  rewrite skipn_app, skipn_all, Nat.sub_diag. cbn [app skipn].
  apply firstn_all.
Qed.

(** A read that starts inside or past the buffer and would end past it
    yields whatever bytes are left. *)
Lemma slice_short (source : list byte) (loc w : Z) :
  0 <= loc -> seq_len source < loc + w ->
  slice source loc (loc + w) = skipn (Z.to_nat loc) source.
Proof.
  intros Hloc Hshort. pose proof (seq_len_nonneg source) as Hn.
  unfold slice, py_slice, slice_index.
  destruct (Z.ltb_spec loc 0); [lia|].
  destruct (Z.ltb_spec (loc + w) 0); [lia|].
  rewrite (Z.min_r (loc + w)) by lia.
  destruct (Z_le_gt_dec loc (seq_len source)) as [Hin|Hout].
  - rewrite Z.min_l by lia. apply firstn_all2.
    rewrite length_skipn. unfold seq_len in *. lia.
  - rewrite Z.min_r by lia.
    replace (Z.to_nat (seq_len source - seq_len source)) with 0%nat by lia.
    cbn [firstn]. symmetry. apply skipn_all2. unfold seq_len in *. lia.
Qed.

Lemma slice_whole (bs : list byte) :
  slice bs 0 (seq_len bs) = bs.
Proof.
  pose proof (slice_appended [] bs) as H. cbn in H. exact H.
Qed.

(** ** Integer codecs *)

Lemma int_to_bytes_representable (v w : Z) (signed : bool) :
  0 < w -> representable (8 * w) signed v ->
  exists bs, int_to_bytes v w little signed = Ok bs.
Proof.
  intros Hw Hrep. unfold int_to_bytes.
  destruct (Z.ltb_spec w 0); [lia|].
  assert (Hp : 2 ^ (8 * w) = 2 * 2 ^ (8 * w - 1)).
  { rewrite <- Z.pow_succ_r by lia. f_equal. lia. }
  unfold representable in Hrep.
  destruct signed.
  - replace ((- 2 ^ (8 * w) <=? 2 * v) && (2 * v <? 2 ^ (8 * w))) with true.
    + cbn [orb]. eauto.
    + symmetry. apply andb_true_iff. split; [apply Z.leb_le|apply Z.ltb_lt]; lia.
  - replace ((0 <=? v) && (v <? 2 ^ (8 * w))) with true.
    + eauto.
    + symmetry. apply andb_true_iff. split; [apply Z.leb_le|apply Z.ltb_lt]; lia.
Qed.

Lemma from_row_binary_unfold (cls : class_attrs) (c : int_codec)
    (source : list byte) (loc : Z) :
  from_row_binary cls c source loc =
  (int_from_bytes (slice source loc (loc + codec_width c)) little
     (codec_signed cls c),
   loc + codec_width c).
Proof. destruct c; reflexivity. Qed.

Lemma to_row_binary_unfold (cls : class_attrs) (c : int_codec) (v : Z)
    (dest : list byte) :
  to_row_binary cls c v dest =
  (bs <- int_to_bytes v (codec_width c) little (codec_signed cls c) ;;
   Ok (dest ++ bs)).
Proof. destruct c; reflexivity. Qed.

(** C1.  With the class attributes as the class bodies leave them, a
    [UInt64] instance decodes eight [FF] bytes to 18446744073709551615.
    After [uint64_handling('signed')], whatever the attributes were before,
    the very same instance decodes the same bytes to -1; switching back
    restores the unsigned reading.  The instance holds no signedness of its
    own: the attribute is read from the class at every decode. *)
Theorem UInt64_policy_read_at_decode_time (self : UInt64) (cls : class_attrs) :
  let ff := bytes_of [255; 255; 255; 255; 255; 255; 255; 255] in
  UInt64_from_row_binary class_defaults self ff 0 = (18446744073709551615, 8)
  /\ UInt64_from_row_binary (uint64_handling "signed" cls) self ff 0 = (-1, 8)
  /\ UInt64_from_row_binary
       (uint64_handling "unsigned" (uint64_handling "signed" cls)) self ff 0
     = (18446744073709551615, 8).
Proof.
  cbv zeta. repeat split; vm_compute; reflexivity.
Qed.

(** C5.  For every integer codec ([Int] or [UInt] of any positive byte
    width, and [UInt64] under either setting of its class attribute) and
    every value representable in that width and signedness, encoding the
    value appends exactly [width] bytes to the destination, and decoding
    the result at the offset where the appended bytes start returns the
    value and the offset just past them. *)
Theorem int_codec_round_trip (cls : class_attrs) (c : int_codec) (v : Z)
    (dest : list byte) :
  0 < codec_width c ->
  representable (8 * codec_width c) (codec_signed cls c) v ->
  exists bs,
    seq_len bs = codec_width c
    /\ to_row_binary cls c v dest = Ok (dest ++ bs)
    /\ from_row_binary cls c (dest ++ bs) (seq_len dest)
       = (v, seq_len dest + codec_width c).
Proof.
  intros Hw Hrep.
  destruct (int_to_bytes_representable v _ _ Hw Hrep) as [bs Hbs].
  destruct (int_from_bytes_to_bytes _ _ _ _ Hbs) as [Hlen Hval]; [lia|].
  exists bs. split; [exact Hlen|]. split.
  - rewrite to_row_binary_unfold, Hbs. reflexivity.
  - rewrite from_row_binary_unfold, <- Hlen, slice_appended, Hval.
    reflexivity.
Qed.

Lemma int_codec_round_trip_witness :
  let c := Int_codec (Int_init Int_cls (type_def_of 16 [])) in
  0 < codec_width c
  /\ representable (8 * codec_width c) (codec_signed class_defaults c) (-2)
  /\ exists bs,
       seq_len bs = codec_width c
       /\ to_row_binary class_defaults c (-2) [x01] = Ok ([x01] ++ bs)
       /\ from_row_binary class_defaults c ([x01] ++ bs) (seq_len [x01])
          = (-2, seq_len [x01] + codec_width c).
Proof.
  cbv zeta.
  assert (Hw : 0 < codec_width (Int_codec (Int_init Int_cls (type_def_of 16 []))))
    by reflexivity.
  assert (Hr : representable
                 (8 * codec_width (Int_codec (Int_init Int_cls (type_def_of 16 []))))
                 (codec_signed class_defaults
                    (Int_codec (Int_init Int_cls (type_def_of 16 [])))) (-2))
    by (cbv; split; [discriminate|reflexivity]).
  split; [exact Hw|]. split; [exact Hr|].
  exact (int_codec_round_trip class_defaults _ (-2) [x01] Hw Hr).
Defined.

(** C3, the claim as stated fails.  A 32-bit [Int] codec handed a buffer of
    three bytes at offset 0 returns a value and the offset 4; a
    [FixedString(4)] under the default attributes handed the same buffer
    returns its three bytes.  Neither raises. *)
Lemma short_buffer_is_decoded :
  let source := bytes_of [1; 2; 3] in
  seq_len source < 0 + 4
  /\ Int_from_row_binary (Int_init Int_cls (type_def_of 32 [])) source 0
     = (197121, 4)
  /\ (forall bytes_decode self,
        FixedString_init (type_def_of 0 [VInt 4]) = Ok self ->
        FixedString_from_row_binary bytes_decode class_defaults self source 0
        = Ok (Bytes source, 4)).
Proof.
  cbv zeta. split; [reflexivity|]. split; [vm_compute; reflexivity|].
  intros bytes_decode self H. injection H as <-. reflexivity.
Qed.

(** C3, amended.  The module has no bounds check: every read is a slice,
    and a slice never raises.  For every integer codec, and for
    [FixedString] while [_transform] is the raw function, a decode at a
    non-negative offset [loc] with [loc + width] past the end of the buffer
    does not fail: it returns the value of the bytes that remain from
    [loc] on (the integer they spell, or those bytes themselves), paired
    with [loc + width]. *)
Theorem short_buffer_decodes_remaining_bytes (cls : class_attrs)
    (source : list byte) (loc w : Z) :
  0 <= loc ->
  seq_len source < loc + w ->
  (forall c, codec_width c = w ->
     from_row_binary cls c source loc
     = (int_from_bytes (skipn (Z.to_nat loc) source) little (codec_signed cls c),
        loc + w))
  /\ (forall bytes_decode self,
        FixedString_size self = VInt w ->
        FixedString_transform cls = staticmethod fixed_string_raw ->
        FixedString_from_row_binary bytes_decode cls self source loc
        = Ok (Bytes (skipn (Z.to_nat loc) source), loc + w)).
Proof.
  intros Hloc Hshort. split.
  - intros c Hc. rewrite from_row_binary_unfold, Hc, slice_short by assumption.
    reflexivity.
  - intros bytes_decode self Hsz Htr. unfold FixedString_from_row_binary.
    rewrite Hsz, Htr, slice_short by assumption. reflexivity.
Qed.

Lemma short_buffer_decodes_remaining_bytes_witness :
  let source := bytes_of [9; 1; 2; 3] in
  0 <= 1
  /\ seq_len source < 1 + 4
  /\ from_row_binary class_defaults
       (Int_codec (Int_init UInt_cls (type_def_of 32 []))) source 1
     = (197121, 5)
  /\ FixedString_from_row_binary
       (utf8_bytes_decode (fun _ _ => Raise LookupError)) class_defaults
       {| FixedString_size := VInt 4; FixedString_name_suffix := "(4)" |}
       source 1
     = Ok (Bytes (bytes_of [1; 2; 3]), 5).
Proof.
  cbv zeta.
  assert (H0 : 0 <= 1) by lia.
  assert (H1 : seq_len (bytes_of [9; 1; 2; 3]) < 1 + 4) by reflexivity.
  destruct (short_buffer_decodes_remaining_bytes class_defaults
              (bytes_of [9; 1; 2; 3]) 1 4 H0 H1) as [Hint Hfs].
  split; [exact H0|]. split; [exact H1|]. split.
  - exact (Hint (Int_codec (Int_init UInt_cls (type_def_of 32 []))) eq_refl).
  - exact (Hfs (utf8_bytes_decode (fun _ _ => Raise LookupError))
             {| FixedString_size := VInt 4; FixedString_name_suffix := "(4)" |}
             eq_refl eq_refl).
Defined.

(** ** [uint64_handling] *)





(** ** [Float32], [Float64] *)

(** C9, what the code does.  Whatever the float and whatever the
    destination, both encoders hand [struct.pack] a one-element tuple where
    the format asks for a number, so both raise [struct.error] and nothing
    is appended; the IEEE-754 serialisation is never reached. *)
Theorem float_encoders_always_raise
    (ieee754_pack : float_format -> spec_float -> result (list byte))
    (v : spec_float) (dest : list byte) :
  Float32_to_row_binary ieee754_pack v dest = Raise StructError
  /\ Float64_to_row_binary ieee754_pack v dest = Raise StructError.
Proof. split; reflexivity. Qed.

(** ** [Decimal]: construction *)

Lemma Decimal_tier_bytes (prec : Z) :
  Decimal_tier prec / 8 =
  if prec <? 10 then 4 else if prec <? 19 then 8
  else if prec <? 39 then 16 else 32.
Proof.
  unfold Decimal_tier.
  destruct (prec <? 10); [reflexivity|].
  destruct (prec <? 19); [reflexivity|].
  destruct (prec <? 39); reflexivity.
Qed.

Lemma declared_precision_inv (type_def : TypeDef.t) (prec : Z) :
  declared_precision type_def = Some prec ->
  TypeDef.size type_def = 0
  /\ exists scale rest, TypeDef.values type_def = VInt prec :: scale :: rest.
Proof.
  unfold declared_precision.
  destruct (Z.eqb_spec (TypeDef.size type_def) 0) as [Hs|]; [|discriminate].
  destruct (TypeDef.values type_def) as [|[p|] [|scale rest]]; try discriminate.
  intros [= ->]. eauto.
Qed.

(** C6.  For every [TypeDef], constructing a [Decimal] raises the
    precision error ([ArithmeticError]) exactly when the [TypeDef] declares
    a precision and that precision is below 1 or above 79.  When the
    declared precision is within 1..79 the construction succeeds and the
    backing width is 32 bits below precision 10, 64 bits below 19, 128 bits
    below 39 and 256 bits from there on, stored as a byte count. *)
Theorem Decimal_init_precision (type_def : TypeDef.t) :
  (Decimal_init type_def = Raise ArithmeticError
   <-> exists prec, declared_precision type_def = Some prec
                    /\ (prec < 1 \/ 79 < prec))
  /\ (forall prec,
        declared_precision type_def = Some prec -> 1 <= prec <= 79 ->
        exists self,
          Decimal_init type_def = Ok self
          /\ 8 * Decimal_size self =
             (if prec <? 10 then 32 else if prec <? 19 then 64
              else if prec <? 39 then 128 else 256)).
Proof.
  split; [split|].
  - unfold Decimal_init, declared_precision, values_at.
    destruct (Z.eqb_spec (TypeDef.size type_def) 0) as [Hs|Hs].
    + destruct (TypeDef.values type_def) as [|[p|s] [|scale rest]];
        cbn; try discriminate.
      destruct (Z.ltb_spec p 1); destruct (Z.ltb_spec 79 p); cbn;
        try discriminate; intros _; exists p; split; (reflexivity || lia).
    + destruct (TypeDef.values type_def) as [|v0 rest]; cbn; discriminate.
  - intros (prec & Hd & Hout).
    destruct (declared_precision_inv _ _ Hd) as (Hs & scale & rest & Hv).
    unfold Decimal_init, values_at. rewrite Hs, Hv. cbn.
    destruct (Z.ltb_spec prec 1); destruct (Z.ltb_spec 79 prec); cbn;
      (reflexivity || lia).
  - intros prec Hd Hin.
    destruct (declared_precision_inv _ _ Hd) as (Hs & scale & rest & Hv).
    unfold Decimal_init, values_at. rewrite Hs, Hv. cbn.
    destruct (Z.ltb_spec prec 1); [lia|]. destruct (Z.ltb_spec 79 prec); [lia|].
    cbn. eexists. split; [reflexivity|].
    cbn [Decimal_size]. rewrite Decimal_tier_bytes.
    destruct (prec <? 10); [reflexivity|].
    destruct (prec <? 19); [reflexivity|].
    destruct (prec <? 39); reflexivity.
Qed.

Lemma Decimal_init_precision_witness :
  let td0 := type_def_of 0 [VInt 0; VInt 2] in
  let td80 := type_def_of 0 [VInt 80; VInt 2] in
  let td18 := type_def_of 0 [VInt 18; VInt 4] in
  Decimal_init td0 = Raise ArithmeticError
  /\ Decimal_init td80 = Raise ArithmeticError
  /\ declared_precision td18 = Some 18
  /\ 1 <= 18 <= 79
  /\ exists self, Decimal_init td18 = Ok self /\ 8 * Decimal_size self = 64.
Proof.
  cbv zeta.
  assert (Hin : 1 <= 18 <= 79) by lia.
  split; [|split; [|split; [|split]]].
  - apply (proj1 (Decimal_init_precision (type_def_of 0 [VInt 0; VInt 2]))).
    exists 0. split; [reflexivity|lia].
  - apply (proj1 (Decimal_init_precision (type_def_of 0 [VInt 80; VInt 2]))).
    exists 80. split; [reflexivity|lia].
  - reflexivity.
  - exact Hin.
  - exact (proj2 (Decimal_init_precision (type_def_of 0 [VInt 18; VInt 4]))
             18 eq_refl Hin).
Defined.

(** ** [DateTime64] *)

Lemma DateTime64_init_prec (pytz_timezone : string -> result tzinfo)
    (type_def : TypeDef.t) (self : DateTime64) (scale : Z) :
  DateTime64_init pytz_timezone type_def = Ok self ->
  values_at type_def 0 = Ok (VInt scale) ->
  0 <= scale ->
  DateTime64_prec self = IntPower (10 ^ scale).
Proof.
  unfold DateTime64_init. intros Hinit Hv Hs. rewrite Hv in Hinit.
  cbn [bind pow10] in Hinit.
  destruct (Z.ltb_spec scale 0); [lia|].
  cbn [bind] in Hinit.
  match type of Hinit with
  | bind ?r _ = _ => destruct r as [tz|e]; [|discriminate]
  end.
  injection Hinit as <-. reflexivity.
Qed.

Lemma in_range_near_epoch (tz : tzinfo) (t : Z) :
  0 <= t <= 1 ->
  in_datetime_range t = true
  /\ in_datetime_range (t + utcoffset tz t) = true.
Proof.
  intros Ht. pose proof (utcoffset_bound tz t).
  unfold in_datetime_range, datetime_min, datetime_max.
  split; apply andb_true_iff; split; apply Z.leb_le; lia.
Qed.

Lemma fromtimestamp_in_range (seconds : Z) (tz : tzinfo) :
  in_datetime_range seconds = true ->
  in_datetime_range (seconds + utcoffset tz seconds) = true ->
  fromtimestamp seconds tz
  = Ok {| epoch_seconds := seconds; microsecond := 0; dt_tzinfo := tz |}.
Proof.
  intros Hutc Hlocal. unfold fromtimestamp. now rewrite Hutc, Hlocal.
Qed.

(** Decoding with a positive integer [prec]: floor seconds, and the
    remainder in microseconds, which never carries into the seconds. *)
Lemma DateTime64_decode_value
    (float_prec_decode : Z -> Z -> tzinfo -> result datetime)
    (self : DateTime64) (source : list byte) (loc ticks prec : Z) :
  DateTime64_prec self = IntPower prec ->
  0 < prec ->
  int_from_bytes (slice source loc (loc + 8)) little true = ticks ->
  let tz := DateTime64_tzinfo self in
  in_datetime_range (ticks / prec) = true ->
  in_datetime_range (ticks / prec + utcoffset tz (ticks / prec)) = true ->
  DateTime64_from_row_binary float_prec_decode self source loc
  = Ok ({| epoch_seconds := ticks / prec;
           microsecond := (ticks mod prec) * 1000000 / prec;
           dt_tzinfo := tz |}, loc + 8).
Proof.
  intros Hprec Hp Hticks tz Hutc Hlocal. subst tz.
  unfold DateTime64_from_row_binary. rewrite Hprec, Hticks.
  unfold floordiv. destruct (Z.eqb_spec prec 0); [lia|].
  cbn [bind]. rewrite (fromtimestamp_in_range _ _ Hutc Hlocal). cbn [bind].
  replace (ticks - ticks / prec * prec) with (ticks mod prec)
    by (rewrite Z.mod_eq by lia; lia).
  pose proof (Z.mod_pos_bound ticks prec Hp) as Hr.
  set (m := ticks mod prec * 1000000 / prec).
  assert (Hm : 0 <= m < 1000000).
  { subst m. split.
    - apply Z.div_pos; lia.
    - apply Z.div_lt_upper_bound; nia. }
  unfold datetime_add_microseconds.
  cbn [microsecond epoch_seconds dt_tzinfo].
  rewrite Z.add_0_l, (Z.div_small m), (Z.mod_small m), Z.add_0_r by lia.
  rewrite Hlocal. reflexivity.
Qed.

(** C8.  Take a [DateTime64] codec constructed from a [TypeDef] whose first
    value is a scale [s] of zero or more, and eight bytes at [loc] that
    are the signed little-endian encoding of [ticks].  If [ticks] is 0 the
    decode is the epoch instant in the codec's zone; if [ticks] is [10^s]
    it is the epoch plus one second; and for any [ticks] whose second lies
    within years 1..9999 both in UTC and in the codec's zone, the seconds
    are the floor of [ticks / 10^s] (also for negative ticks) and the
    microseconds are the remainder scaled to millionths, rounded down.
    With a negative scale [prec] is a float and the decode runs in float
    arithmetic, which [float_prec_decode] stands for; the statement says
    nothing about it. *)
Theorem DateTime64_decode_ticks
    (float_prec_decode : Z -> Z -> tzinfo -> result datetime)
    (pytz_timezone : string -> result tzinfo)
    (type_def : TypeDef.t) (self : DateTime64) (s : Z)
    (source : list byte) (loc ticks : Z) :
  DateTime64_init pytz_timezone type_def = Ok self ->
  values_at type_def 0 = Ok (VInt s) ->
  0 <= s ->
  int_to_bytes ticks 8 little true = Ok (slice source loc (loc + 8)) ->
  let tz := DateTime64_tzinfo self in
  (ticks = 0 ->
   DateTime64_from_row_binary float_prec_decode self source loc
   = Ok ({| epoch_seconds := 0; microsecond := 0; dt_tzinfo := tz |}, loc + 8))
  /\ (ticks = 10 ^ s ->
      DateTime64_from_row_binary float_prec_decode self source loc
      = Ok ({| epoch_seconds := 1; microsecond := 0; dt_tzinfo := tz |}, loc + 8))
  /\ (in_datetime_range (ticks / 10 ^ s) = true ->
      in_datetime_range (ticks / 10 ^ s + utcoffset tz (ticks / 10 ^ s)) = true ->
      DateTime64_from_row_binary float_prec_decode self source loc
      = Ok ({| epoch_seconds := ticks / 10 ^ s;
               microsecond := (ticks mod 10 ^ s) * 1000000 / 10 ^ s;
               dt_tzinfo := tz |}, loc + 8)).
Proof.
  intros Hinit Hscale Hs Hbytes tz.
  pose proof (DateTime64_init_prec _ _ _ _ Hinit Hscale Hs) as Hprec.
  assert (Hpos : 0 < 10 ^ s) by (apply Z.pow_pos_nonneg; lia).
  destruct (int_from_bytes_to_bytes _ _ _ _ Hbytes) as [_ Hticks]; [lia|].
  pose proof (DateTime64_decode_value float_prec_decode self source loc ticks
                (10 ^ s) Hprec Hpos Hticks) as Hgen.
  cbv zeta in Hgen. fold tz in Hgen.
  split; [|split; [|exact Hgen]].
  - intros ->. rewrite Hgen.
    + rewrite Z.div_0_l, Z.mod_0_l by lia. reflexivity.
    + rewrite Z.div_0_l by lia. apply (in_range_near_epoch tz 0). lia.
    + rewrite Z.div_0_l by lia. apply (in_range_near_epoch tz 0). lia.
  - intros ->. rewrite Hgen.
    + rewrite Z.div_same, Z.mod_same by lia. reflexivity.
    + rewrite Z.div_same by lia. apply (in_range_near_epoch tz 1). lia.
    + rewrite Z.div_same by lia. apply (in_range_near_epoch tz 1). lia.
Qed.

Lemma DateTime64_decode_ticks_witness :
  let float_path := fun (_ _ : Z) (_ : tzinfo) => @Raise datetime ValueError in
  let pytz := fun _ : string => Raise UnknownTimeZoneError in
  let td := type_def_of 0 [VInt 3] in
  let self := {| DateTime64_name_suffix := EmptyString;
                 DateTime64_prec := IntPower 1000;
                 DateTime64_tzinfo := timezone_utc |} in
  let source := bytes_of [232; 3; 0; 0; 0; 0; 0; 0] in
  DateTime64_init pytz td = Ok self
  /\ values_at td 0 = Ok (VInt 3)
  /\ 0 <= 3
  /\ int_to_bytes 1000 8 little true = Ok (slice source 0 (0 + 8))
  /\ DateTime64_from_row_binary float_path self source 0
     = Ok ({| epoch_seconds := 1; microsecond := 0;
              dt_tzinfo := timezone_utc |}, 0 + 8).
Proof.
  cbv zeta.
  assert (H1 : DateTime64_init (fun _ : string => Raise UnknownTimeZoneError)
                 (type_def_of 0 [VInt 3])
               = Ok {| DateTime64_name_suffix := EmptyString;
                       DateTime64_prec := IntPower 1000;
                       DateTime64_tzinfo := timezone_utc |}) by reflexivity.
  assert (H2 : values_at (type_def_of 0 [VInt 3]) 0 = Ok (VInt 3)) by reflexivity.
  assert (H0 : 0 <= 3) by lia.
  assert (H3 : int_to_bytes 1000 8 little true
               = Ok (slice (bytes_of [232; 3; 0; 0; 0; 0; 0; 0]) 0 (0 + 8)))
    by (vm_compute; reflexivity).
  split; [exact H1|]. split; [exact H2|]. split; [exact H0|]. split; [exact H3|].
  exact (proj1 (proj2 (DateTime64_decode_ticks
                         (fun (_ _ : Z) (_ : tzinfo) => Raise ValueError)
                         _ _ _ 3 _ 0 1000 H1 H2 H0 H3))
           eq_refl).
Defined.

(** ** [IPv4], [IPv6] *)

Lemma int_from_bytes_unsigned (bs : list byte) (order : byteorder) :
  int_from_bytes bs order false = le_unsigned (in_order order bs).
Proof. reflexivity. Qed.

(** The mask of the source's test keeps bits 32..47 and nothing else. *)
Lemma land_group_mask (x : Z) :
  Z.land x 0xFFFF00000000 = (x / 2 ^ 32) mod 2 ^ 16 * 2 ^ 32.
Proof.
  change 0xFFFF00000000 with (Z.shiftl (Z.ones 16) 32).
  rewrite <- Z.shiftr_div_pow2, <- Z.land_ones, <- Z.shiftl_mul_pow2 by lia.
  apply Z.bits_inj'. intros n Hn.
  rewrite Z.land_spec.
  destruct (Z_lt_le_dec n 32) as [Hlow|Hhigh].
  - rewrite !Z.shiftl_spec_low by lia. apply andb_false_r.
  - rewrite !Z.shiftl_spec_high by lia.
    rewrite Z.land_spec, Z.shiftr_spec by lia.
    f_equal. f_equal. lia.
Qed.

Lemma land_low32 (x : Z) : Z.land x 0xFFFFFFFF = x mod 2 ^ 32.
Proof.
  change 0xFFFFFFFF with (Z.ones 32). apply Z.land_ones. lia.
Qed.

(** C4, the claim as stated fails.  The sixteen bytes [00*10 FF FF 01 02 03
    04] decode as IPv6 to ["1.2.3.4"], while the four bytes [01 02 03 04]
    decode as IPv4 to ["4.3.2.1"]: the IPv4 codec reads its integer
    little-endian, the IPv6 codec reads the embedded address in network
    order. *)
Lemma IPv6_mapped_text_differs_from_IPv4_decode :
  let v4 := bytes_of [1; 2; 3; 4] in
  IPv6_from_row_binary (v4_mapped v4) 0 = Ok ("1.2.3.4"%string, 16)
  /\ IPv4_from_row_binary v4 0 = Ok ("4.3.2.1"%string, 4)
  /\ IPv6_from_row_binary (v4_mapped v4) 0 <>
     (r <- IPv4_from_row_binary v4 0 ;; Ok (fst r, 16)).
Proof.
  cbv zeta. split; [vm_compute; reflexivity|].
  split; [vm_compute; reflexivity|].
  vm_compute. discriminate.
Qed.

(** The test on the prefix looks at one 16-bit group only: an address
    whose first eighty bits are not zero, here [2001:db8::ffff:102:304],
    is rendered as a dotted quad as well. *)
Lemma IPv6_prefix_test_ignores_high_bits :
  IPv6_from_row_binary
    (bytes_of [0x20; 0x01; 0x0d; 0xb8; 0; 0; 0; 0; 0; 0; 255; 255; 1; 2; 3; 4]) 0
  = Ok ("1.2.3.4"%string, 16).
Proof. vm_compute. reflexivity. Qed.

Lemma IPv6_mapped_value (a b c d : byte) :
  let v := le_unsigned [d; c; b; a] in
  0 <= v < 2 ^ 32
  /\ le_unsigned (rev (v4_mapped [a; b; c; d])) = v + 0xFFFF * 2 ^ 32.
Proof.
  cbv zeta. split.
  - pose proof (le_unsigned_bound [d; c; b; a]) as H.
    change (8 * seq_len [d; c; b; a]) with 32 in H. exact H.
  - cbn [v4_mapped repeat app rev le_unsigned].
    change (byte_val xff) with 255. change (byte_val x00) with 0.
    change (2 ^ 32) with 4294967296. lia.
Qed.

(** C4, amended.  Let [bs] be the sixteen bytes read at [loc].  If [bs] is
    the IPv4-mapped prefix (ten zero bytes, then [FF FF]) followed by four
    bytes [v4], the decode is the dotted quad of [v4] read in network
    order, which is what the IPv4 codec returns for those four bytes in
    reverse order.  If the sixth 16-bit group of [bs] is not [ffff], the
    decode is the standard IPv6 text of the big-endian value.  Inputs whose
    sixth group is [ffff] without the ten zero bytes before it are not
    covered. *)
Theorem IPv6_decode_by_prefix (source : list byte) (loc : Z) (bs : list byte) :
  slice source loc (loc + 16) = bs ->
  seq_len bs = 16 ->
  (forall v4, bs = v4_mapped v4 ->
     exists text,
       IPv6_from_row_binary source loc = Ok (text, loc + 16)
       /\ str_IPv4Address (int_from_bytes v4 big false) = Ok text
       /\ IPv4_from_row_binary (rev v4) 0 = Ok (text, 4))
  /\ ((int_from_bytes bs big false / 2 ^ 32) mod 2 ^ 16 <> 0xFFFF ->
      exists text,
        str_IPv6Address (int_from_bytes bs big false) = Ok text
        /\ IPv6_from_row_binary source loc = Ok (text, loc + 16)).
Proof.
  intros Hslice Hlen. split.
  - intros v4 ->.
    assert (Hv4 : List.length v4 = 4%nat).
    { unfold seq_len, v4_mapped in Hlen. rewrite !length_app in Hlen.
      cbn in Hlen. lia. }
    destruct v4 as [|a [|b [|c [|d [|? ?]]]]]; try discriminate Hv4.
    destruct (IPv6_mapped_value a b c d) as [Hv Hint]. cbv zeta in Hv, Hint.
    set (v := le_unsigned [d; c; b; a]) in *.
    assert (Hquad : exists text, str_IPv4Address v = Ok text).
    { unfold str_IPv4Address.
      destruct (Z.leb_spec 0 v); [|lia]. destruct (Z.ltb_spec v (2 ^ 32)); [|lia].
      cbn [andb]. eauto. }
    destruct Hquad as [text Htext]. exists text. split; [|split].
    + unfold IPv6_from_row_binary. rewrite Hslice, int_from_bytes_unsigned.
      cbn [in_order]. rewrite Hint, land_group_mask, land_low32.
      rewrite Z.div_add, (Z.div_small v), Z.add_0_l by lia.
      rewrite Z.mod_add, (Z.mod_small v) by lia.
      change (0xFFFF mod 2 ^ 16 * 2 ^ 32 =? 0xFFFF00000000) with true.
      cbv iota. rewrite Htext. reflexivity.
    + rewrite int_from_bytes_unsigned. exact Htext.
    + unfold IPv4_from_row_binary.
      change (slice (rev [a; b; c; d]) 0 (0 + 4))
        with (slice [d; c; b; a] 0 (seq_len [d; c; b; a])).
      rewrite slice_whole, int_from_bytes_unsigned. cbn [in_order]. fold v.
      rewrite Htext. reflexivity.
  - intros Hgroup.
    assert (Hrange : 0 <= int_from_bytes bs big false < 2 ^ 128).
    { rewrite int_from_bytes_unsigned. cbn [in_order].
      pose proof (le_unsigned_bound (rev bs)) as H.
      unfold seq_len in H, Hlen. rewrite length_rev in H.
      replace (8 * Z.of_nat (List.length bs)) with 128 in H by lia. exact H. }
    assert (Htext : exists text,
               str_IPv6Address (int_from_bytes bs big false) = Ok text).
    { unfold str_IPv6Address.
      destruct (Z.leb_spec 0 (int_from_bytes bs big false)); [|lia].
      destruct (Z.ltb_spec (int_from_bytes bs big false) (2 ^ 128)); [|lia].
      cbn [andb]. eauto. }
    destruct Htext as [text Htext]. exists text. split; [exact Htext|].
    unfold IPv6_from_row_binary. rewrite Hslice, land_group_mask.
    destruct (Z.eqb_spec
                ((int_from_bytes bs big false / 2 ^ 32) mod 2 ^ 16 * 2 ^ 32)
                0xFFFF00000000) as [E|_].
    + exfalso. apply Hgroup.
      change 0xFFFF00000000 with (0xFFFF * 2 ^ 32) in E. lia.
    + rewrite Htext. reflexivity.
Qed.

Lemma IPv6_decode_by_prefix_witness :
  let bs := v4_mapped (bytes_of [1; 2; 3; 4]) in
  let source := x00 :: bs in
  slice source 1 (1 + 16) = bs
  /\ seq_len bs = 16
  /\ exists text,
       IPv6_from_row_binary source 1 = Ok (text, 1 + 16)
       /\ str_IPv4Address (int_from_bytes (bytes_of [1; 2; 3; 4]) big false)
          = Ok text
       /\ IPv4_from_row_binary (rev (bytes_of [1; 2; 3; 4])) 0 = Ok (text, 4).
Proof.
  cbv zeta.
  assert (H1 : slice (x00 :: v4_mapped (bytes_of [1; 2; 3; 4])) 1 (1 + 16)
               = v4_mapped (bytes_of [1; 2; 3; 4])) by reflexivity.
  assert (H2 : seq_len (v4_mapped (bytes_of [1; 2; 3; 4])) = 16) by reflexivity.
  split; [exact H1|]. split; [exact H2|].
  exact (proj1 (IPv6_decode_by_prefix _ 1 _ H1 H2) (bytes_of [1; 2; 3; 4]) eq_refl).
Defined.

(** ** [Decimal]: decoding *)

(** The decoder never sees a negative integer: the bytes are read
    unsigned. *)
Lemma Decimal_unscaled_nonneg (self : Decimal) (source : list byte) (loc : Z) :
  0 <= Decimal_unscaled self source loc.
Proof.
  unfold Decimal_unscaled. rewrite int_from_bytes_unsigned.
  apply le_unsigned_bound.
Qed.

(** The sign test [unscaled <= 0] therefore fires on zero and on nothing
    else. *)
Lemma Decimal_sign_test (self : Decimal) (source : list byte) (loc : Z) :
  (Decimal_unscaled self source loc <=? 0)
  = (Decimal_unscaled self source loc =? 0).
Proof.
  pose proof (Decimal_unscaled_nonneg self source loc).
  destruct (Z.leb_spec (Decimal_unscaled self source loc) 0);
    destruct (Z.eqb_spec (Decimal_unscaled self source loc) 0); lia || reflexivity.
Qed.

(** C2, what the code does on a [Decimal(9, 2)] codec, four bytes wide.
    Four zero bytes are formatted as ["-.0"] and parsed to negative zero,
    sign set.  The bytes [FF FF FF FF], which are -1 in two's complement
    and so stand for -0.01, are read unsigned and decoded to 42949672.95.
    The bytes [05 00 00 00], which stand for 0.05, have fewer digits than
    the scale and are decoded to 0.5. *)
Theorem Decimal_decode_defects :
  exists self,
    Decimal_init (type_def_of 0 [VInt 9; VInt 2]) = Ok self
    /\ Decimal_size self = 4
    /\ Decimal_text self (bytes_of [0; 0; 0; 0]) 0 = Ok "-.0"%string
    /\ Decimal_from_row_binary self (bytes_of [0; 0; 0; 0]) 0
       = Ok ({| dec_sign := true; dec_coefficient := 0; dec_exponent := -1 |}, 4)
    /\ Decimal_from_row_binary self (bytes_of [255; 255; 255; 255]) 0
       = Ok ({| dec_sign := false; dec_coefficient := 4294967295;
                dec_exponent := -2 |}, 4)
    /\ Decimal_from_row_binary self (bytes_of [5; 0; 0; 0]) 0
       = Ok ({| dec_sign := false; dec_coefficient := 5;
                dec_exponent := -1 |}, 4).
Proof.
  eexists. split; [reflexivity|].
  repeat split; vm_compute; reflexivity.
Qed.

(** ** [FixedString] and [fixed_string_handling] *)

Section FixedStringPolicy.

Variable bytes_decode : list byte -> string -> result string.
Variables (cls : class_attrs) (self : FixedString) (n : Z).
Variables (source : list byte) (loc : Z).
Hypothesis size_is_int : FixedString_size self = VInt n.

(** Method ['hex'] binds the two-parameter [_hex_string] as a
    [staticmethod], so the decode calls it with one argument. *)
Lemma hex_method_raises (encoding encoding_error : string) :
  FixedString_from_row_binary bytes_decode
    (fixed_string_handling "hex" encoding encoding_error cls) self source loc
  = Raise TypeError.
Proof.
  unfold FixedString_from_row_binary. rewrite size_is_int. reflexivity.
Qed.

(** Method ['decode'] with the ['hex'] fallback recovers from undecodable
    bytes with their hex rendering. *)
Lemma decode_method_hex_fallback (encoding : string) :
  bytes_decode (slice source loc (loc + n)) encoding = Raise UnicodeDecodeError ->
  FixedString_from_row_binary bytes_decode
    (fixed_string_handling "decode" encoding "hex" cls) self source loc
  = Ok (Str (hexlify (slice source loc (loc + n))), loc + n).
Proof.
  intros Hbad. unfold FixedString_from_row_binary. rewrite size_is_int.
  cbn. rewrite Hbad. reflexivity.
Qed.

(** Method ['decode'] with any other fallback binds a one-parameter lambda
    as a [classmethod], so the fallback call passes one argument too
    many. *)
Lemma decode_method_placeholder_raises (encoding encoding_error : string) :
  String.eqb encoding_error "hex" = false ->
  bytes_decode (slice source loc (loc + n)) encoding = Raise UnicodeDecodeError ->
  FixedString_from_row_binary bytes_decode
    (fixed_string_handling "decode" encoding encoding_error cls) self source loc
  = Raise TypeError.
Proof.
  intros Hother Hbad. unfold FixedString_from_row_binary. rewrite size_is_int.
  unfold fixed_string_handling. cbn. rewrite Hother. cbn. rewrite Hbad.
  reflexivity.
Qed.

End FixedStringPolicy.

(** C7, what the code does on the bytes [FF FE], which are not UTF-8, read
    by a [FixedString(2)].  Under method ['decode'] with the ['hex']
    fallback the decode recovers and returns ["fffe"].  Under method
    ['hex'] the same read raises [TypeError], so there is no direct hex
    text to agree with.  Under method ['decode'] with a fallback other than
    ['hex'] the read raises [TypeError] instead of returning the
    placeholder. *)
Theorem FixedString_policy_defects
    (other_codecs : list byte -> string -> result string) :
  exists self,
    FixedString_init (type_def_of 0 [VInt 2]) = Ok self
    /\ utf8_bytes_decode other_codecs (bytes_of [255; 254]) "utf8"
       = Raise UnicodeDecodeError
    /\ FixedString_from_row_binary (utf8_bytes_decode other_codecs)
         (fixed_string_handling "decode" "utf8" "hex" class_defaults)
         self (bytes_of [255; 254]) 0
       = Ok (Str "fffe", 2)
    /\ FixedString_from_row_binary (utf8_bytes_decode other_codecs)
         (fixed_string_handling "hex" "utf8" "hex" class_defaults)
         self (bytes_of [255; 254]) 0
       = Raise TypeError
    /\ FixedString_from_row_binary (utf8_bytes_decode other_codecs)
         (fixed_string_handling "decode" "utf8" "placeholder" class_defaults)
         self (bytes_of [255; 254]) 0
       = Raise TypeError.
Proof.
  eexists. split; [reflexivity|].
  repeat split; vm_compute; reflexivity.
Qed.

(* ================================================================== *)
(** * Further properties of the codecs *)

(** ** More on slices and bytes *)

Lemma slice_length_le (s : list byte) (lo hi : Z) :
  lo <= hi -> seq_len (slice s lo hi) <= hi - lo.
Proof.
  intros Hle. unfold slice, py_slice, slice_index, seq_len.
  rewrite length_firstn, length_skipn.
  destruct (Z.ltb_spec lo 0); destruct (Z.ltb_spec hi 0); lia.
Qed.

Lemma slice_length_full (s : list byte) (loc w : Z) :
  0 <= loc -> 0 <= w -> loc + w <= seq_len s ->
  seq_len (slice s loc (loc + w)) = w.
Proof.
  intros Hloc Hw Hfit. unfold slice, py_slice, slice_index, seq_len in *.
  rewrite length_firstn, length_skipn.
  destruct (Z.ltb_spec loc 0); destruct (Z.ltb_spec (loc + w) 0); lia.
Qed.

Lemma byte_of_Z_val (b : byte) : byte_of_Z (byte_val b) = b.
Proof.
  pose proof (byte_val_range b) as Hr. unfold byte_of_Z.
  rewrite Z.mod_small by exact Hr. unfold byte_val.
  rewrite N2Z.id, Byte.of_to_N. reflexivity.
Qed.

Lemma le_bytes_le_unsigned (bs : list byte) :
  le_bytes (List.length bs) (le_unsigned bs) = bs.
Proof.
  induction bs as [|b rest IH]; [reflexivity|].
  cbn [List.length le_bytes le_unsigned].
  pose proof (byte_val_range b) as Hb.
  replace ((byte_val b + 256 * le_unsigned rest) mod 256) with (byte_val b)
    by (apply (Z.mod_unique _ 256 (le_unsigned rest)); lia).
  replace ((byte_val b + 256 * le_unsigned rest) / 256) with (le_unsigned rest)
    by (apply (Z.div_unique _ 256 _ (byte_val b)); lia).
  now rewrite byte_of_Z_val, IH.
Qed.

Lemma le_unsigned_app (a b : list byte) :
  le_unsigned (a ++ b) = le_unsigned a + 2 ^ (8 * seq_len a) * le_unsigned b.
Proof.
  induction a as [|x a IH].
  - cbn. destruct (le_unsigned b); reflexivity.
  - rewrite seq_len_cons. cbn [app le_unsigned]. rewrite IH.
    pose proof (seq_len_nonneg a).
    replace (8 * (1 + seq_len a)) with (8 + 8 * seq_len a) by lia.
    rewrite Z.pow_add_r by lia. change (2 ^ 8) with 256. ring.
Qed.

(** What [from_bytes] can return for a sequence of a given length. *)
Lemma int_from_bytes_range (bs : list byte) (signed : bool) :
  let m := 2 ^ (8 * seq_len bs) in
  let v := int_from_bytes bs little signed in
  if signed then - m <= 2 * v < m else 0 <= v < m.
Proof.
  cbv zeta. unfold int_from_bytes. cbn [in_order].
  pose proof (le_unsigned_bound bs) as Hu.
  destruct signed; cbn [andb]; [|exact Hu].
  destruct (Z.leb_spec (2 ^ (8 * seq_len bs)) (2 * le_unsigned bs)); lia.
Qed.

Lemma pow2_bytes_mono (k w : Z) :
  0 <= k <= w -> 0 < 2 ^ (8 * k) <= 2 ^ (8 * w).
Proof.
  intros H. split; [apply Z.pow_pos_nonneg; lia|].
  apply Z.pow_le_mono_r; lia.
Qed.

Lemma pow2_bytes_half (w : Z) : 0 < w -> 2 ^ (8 * w) = 2 * 2 ^ (8 * w - 1).
Proof.
  intros Hw. rewrite <- Z.pow_succ_r by lia. f_equal. lia.
Qed.

(** [to_bytes] refuses exactly the values outside the range of the
    width. *)
Lemma int_to_bytes_overflow_iff (v w : Z) (signed : bool) :
  0 < w ->
  (int_to_bytes v w little signed = Raise OverflowError
   <-> ~ representable (8 * w) signed v).
Proof.
  intros Hw. split.
  - intros Hraise Hrep.
    destruct (int_to_bytes_representable v w signed Hw Hrep) as [bs Hok].
    congruence.
  - intros Hnot. unfold int_to_bytes.
    destruct (Z.ltb_spec w 0); [lia|].
    pose proof (pow2_bytes_half _ Hw) as Hhalf.
    unfold representable in Hnot.
    destruct (Z.eqb_spec w 0); [lia|]. cbn [andb orb].
    rewrite orb_false_r.
    destruct signed.
    + destruct (Z.leb_spec (- 2 ^ (8 * w)) (2 * v));
        destruct (Z.ltb_spec (2 * v) (2 ^ (8 * w)));
        cbn; try reflexivity. exfalso. apply Hnot. lia.
    + destruct (Z.leb_spec 0 v); destruct (Z.ltb_spec v (2 ^ (8 * w)));
        cbn; try reflexivity. exfalso. apply Hnot. lia.
Qed.

(** The bytes [to_bytes] writes spell the value modulo [2^(8w)]. *)
Lemma int_to_bytes_value (v w : Z) (signed : bool) (bs : list byte) :
  int_to_bytes v w little signed = Ok bs ->
  seq_len bs = w /\ le_unsigned bs = v mod 2 ^ (8 * w).
Proof.
  unfold int_to_bytes. destruct (Z.ltb_spec w 0); [discriminate|].
  match goal with
  | |- context [if ?fits then Ok _ else Raise _] => destruct fits
  end; [|discriminate].
  cbn [in_order]. intros [= <-]. split.
  - unfold seq_len. rewrite length_le_bytes. lia.
  - apply le_unsigned_le_bytes. rewrite Z2Nat.id by lia.
    apply Z.mod_pos_bound. apply Z.pow_pos_nonneg; lia.
Qed.

(** ** Integer codecs, continued *)

(** X1.  Whatever the buffer and the offset, an integer codec of positive width
    returns a value inside the range of its width and signedness, and the
    offset advanced by the width. *)
Theorem int_decode_in_range (cls : class_attrs) (c : int_codec)
    (source : list byte) (loc : Z) :
  0 < codec_width c ->
  representable (8 * codec_width c) (codec_signed cls c)
    (fst (from_row_binary cls c source loc))
  /\ snd (from_row_binary cls c source loc) = loc + codec_width c.
Proof.
  intros Hw. rewrite from_row_binary_unfold. cbn [fst snd].
  split; [|reflexivity].
  set (bs := slice source loc (loc + codec_width c)).
  pose proof (slice_length_le source loc (loc + codec_width c) ltac:(lia))
    as Hlen.
  fold bs in Hlen. pose proof (seq_len_nonneg bs) as Hnn.
  assert (Hk : 0 <= seq_len bs <= codec_width c) by lia.
  pose proof (pow2_bytes_mono _ _ Hk) as Hm.
  pose proof (pow2_bytes_half _ Hw) as Hhalf.
  pose proof (int_from_bytes_range bs (codec_signed cls c)) as Hr.
  cbv zeta in Hr. unfold representable.
  destruct (codec_signed cls c); lia.
Qed.

Lemma int_decode_in_range_witness :
  let c := Int_codec (Int_init Int_cls (type_def_of 16 [])) in
  0 < codec_width c
  /\ representable (8 * codec_width c) (codec_signed class_defaults c)
       (fst (from_row_binary class_defaults c (bytes_of [255]) 0))
  /\ snd (from_row_binary class_defaults c (bytes_of [255]) 0)
     = 0 + codec_width c.
Proof.
  cbv zeta.
  assert (Hw : 0 < codec_width (Int_codec (Int_init Int_cls (type_def_of 16 []))))
    by reflexivity.
  split; [exact Hw|].
  exact (int_decode_in_range class_defaults _ (bytes_of [255]) 0 Hw).
Defined.

(** X2.  Re-encoding what was decoded from a full-width read appends exactly the
    bytes that were read. *)
Theorem int_decode_then_encode (cls : class_attrs) (c : int_codec)
    (source dest : list byte) (loc : Z) :
  0 <= loc -> 0 < codec_width c -> loc + codec_width c <= seq_len source ->
  to_row_binary cls c (fst (from_row_binary cls c source loc)) dest
  = Ok (dest ++ slice source loc (loc + codec_width c)).
Proof.
  intros Hloc Hw Hfit.
  rewrite to_row_binary_unfold, from_row_binary_unfold. cbn [fst].
  set (w := codec_width c) in *. set (bs := slice source loc (loc + w)).
  assert (Hlen : seq_len bs = w) by (apply slice_length_full; lia).
  pose proof (int_from_bytes_range bs (codec_signed cls c)) as Hr.
  cbv zeta in Hr. rewrite Hlen in Hr.
  pose proof (le_unsigned_bound bs) as Hu. rewrite Hlen in Hu.
  assert (Hmod : int_from_bytes bs little (codec_signed cls c) mod 2 ^ (8 * w)
                 = le_unsigned bs).
  { unfold int_from_bytes. cbn [in_order]. rewrite Hlen.
    destruct (codec_signed cls c && (2 ^ (8 * w) <=? 2 * le_unsigned bs)).
    - symmetry. apply (Z.mod_unique _ _ (-1)); lia.
    - apply Z.mod_small. lia. }
  unfold int_to_bytes. destruct (Z.ltb_spec w 0); [lia|].
  rewrite Hmod.
  replace (Z.to_nat w) with (List.length bs) by (unfold seq_len in Hlen; lia).
  rewrite le_bytes_le_unsigned. cbn [in_order].
  set (v := int_from_bytes bs little (codec_signed cls c)) in *.
  destruct (codec_signed cls c).
  - destruct (Z.leb_spec (- 2 ^ (8 * w)) (2 * v)); [|lia].
    destruct (Z.ltb_spec (2 * v) (2 ^ (8 * w))); [|lia]. reflexivity.
  - destruct (Z.leb_spec 0 v); [|lia].
    destruct (Z.ltb_spec v (2 ^ (8 * w))); [|lia]. reflexivity.
Qed.

Lemma int_decode_then_encode_witness :
  let c := UInt64_codec (UInt64_init (type_def_of 64 [])) in
  let cls := uint64_handling "signed" class_defaults in
  let source := bytes_of [7; 255; 255; 255; 255; 255; 255; 255; 255] in
  0 <= 1 /\ 0 < codec_width c /\ 1 + codec_width c <= seq_len source
  /\ to_row_binary cls c (fst (from_row_binary cls c source 1)) [x00]
     = Ok ([x00] ++ slice source 1 (1 + codec_width c)).
Proof.
  cbv zeta.
  assert (H0 : 0 <= 1) by lia.
  assert (H1 : 0 < codec_width (UInt64_codec (UInt64_init (type_def_of 64 []))))
    by reflexivity.
  assert (H2 : 1 + codec_width (UInt64_codec (UInt64_init (type_def_of 64 [])))
               <= seq_len (bytes_of [7; 255; 255; 255; 255; 255; 255; 255; 255]))
    by (cbv; discriminate).
  split; [exact H0|]. split; [exact H1|]. split; [exact H2|].
  exact (int_decode_then_encode (uint64_handling "signed" class_defaults) _ _
           [x00] 1 H0 H1 H2).
Defined.

(** X3.  Encoding fails, with [OverflowError], exactly on the values that are
    not representable in the codec's width and signedness. *)
Theorem int_encode_overflow_iff (cls : class_attrs) (c : int_codec) (v : Z)
    (dest : list byte) :
  0 < codec_width c ->
  (to_row_binary cls c v dest = Raise OverflowError
   <-> ~ representable (8 * codec_width c) (codec_signed cls c) v).
Proof.
  intros Hw. rewrite to_row_binary_unfold.
  rewrite <- (int_to_bytes_overflow_iff v _ (codec_signed cls c) Hw).
  destruct (int_to_bytes v (codec_width c) little (codec_signed cls c)) as [bs|e];
    cbn [bind]; split; congruence.
Qed.

Lemma int_encode_overflow_iff_witness :
  let c := Int_codec (Int_init UInt_cls (type_def_of 8 [])) in
  0 < codec_width c
  /\ to_row_binary class_defaults c 256 [] = Raise OverflowError
  /\ ~ representable (8 * codec_width c) (codec_signed class_defaults c) 256.
Proof.
  cbv zeta.
  assert (Hw : 0 < codec_width (Int_codec (Int_init UInt_cls (type_def_of 8 []))))
    by reflexivity.
  split; [exact Hw|]. split; [reflexivity|].
  apply (proj1 (int_encode_overflow_iff class_defaults _ 256 [] Hw)).
  reflexivity.
Defined.

(** X4.  A [UInt64] value written under one setting of the class attribute and
    read under another: the result depends on the value modulo [2^64] and
    on the setting in force at decode time only.  A negative value written
    signed comes back unsigned as [v + 2^64]; a value from [2^63] on
    written unsigned comes back signed as [v - 2^64]. *)
Theorem UInt64_policy_changed_between_calls (cls_enc cls_dec : class_attrs)
    (self : UInt64) (v : Z) (dest dest' : list byte) :
  UInt64_to_row_binary cls_enc self v dest = Ok dest' ->
  UInt64_from_row_binary cls_dec self dest' (seq_len dest)
  = (let u := v mod 2 ^ 64 in
     if UInt64_signed cls_dec && (2 ^ 63 <=? u) then u - 2 ^ 64 else u,
     seq_len dest + 8).
Proof.
  unfold UInt64_to_row_binary, UInt64_from_row_binary, int_to_bytes.
  change (8 <? 0) with false. cbv iota. change (8 * 8) with 64.
  match goal with
  | |- context [if ?fits then Ok _ else Raise _] => destruct fits
  end; [|discriminate].
  cbn [bind in_order]. intros [= <-].
  set (bs := le_bytes (Z.to_nat 8) (v mod 2 ^ 64)).
  assert (Hlen : seq_len bs = 8)
    by (unfold seq_len, bs; rewrite length_le_bytes; reflexivity).
  replace (seq_len dest + 8) with (seq_len dest + seq_len bs) by lia.
  rewrite slice_appended. rewrite Hlen.
  unfold int_from_bytes. cbn [in_order]. rewrite Hlen. change (8 * 8) with 64.
  pose proof (Z.mod_pos_bound v (2 ^ 64) ltac:(lia)) as Hu.
  unfold bs. rewrite le_unsigned_le_bytes by (exact Hu).
  cbv zeta. f_equal.
  destruct (UInt64_signed cls_dec); cbn [andb]; [|reflexivity].
  destruct (Z.leb_spec (2 ^ 64) (2 * (v mod 2 ^ 64)));
    destruct (Z.leb_spec (2 ^ 63) (v mod 2 ^ 64)); lia || reflexivity.
Qed.

Lemma UInt64_policy_changed_between_calls_witness :
  let self := UInt64_init (type_def_of 64 []) in
  let cls_enc := uint64_handling "signed" class_defaults in
  let dest' := bytes_of [255; 255; 255; 255; 255; 255; 255; 255] in
  UInt64_to_row_binary cls_enc self (-1) [] = Ok dest'
  /\ UInt64_from_row_binary class_defaults self dest' (seq_len (@nil byte))
     = (18446744073709551615, seq_len (@nil byte) + 8).
Proof.
  cbv zeta.
  assert (H : UInt64_to_row_binary (uint64_handling "signed" class_defaults)
                (UInt64_init (type_def_of 64 [])) (-1) []
              = Ok (bytes_of [255; 255; 255; 255; 255; 255; 255; 255]))
    by (vm_compute; reflexivity).
  split; [exact H|].
  exact (UInt64_policy_changed_between_calls _ class_defaults _ (-1) [] _ H).
Defined.

(** ** [Float32], [Float64]: decoding *)

(** X5.  Unlike the integer codecs, the float decoders do notice a short
    buffer: at a non-negative offset they raise [struct.error] exactly when
    fewer bytes than the format needs remain, and otherwise return the
    unpacked value of exactly those bytes with the offset advanced. *)
Theorem float_decode_needs_full_width
    (ieee754_unpack : float_format -> list byte -> spec_float)
    (source : list byte) (loc : Z) :
  0 <= loc ->
  (Float32_from_row_binary ieee754_unpack source loc = Raise StructError
   <-> seq_len source < loc + 4)
  /\ (Float64_from_row_binary ieee754_unpack source loc = Raise StructError
      <-> seq_len source < loc + 8)
  /\ (loc + 4 <= seq_len source ->
      Float32_from_row_binary ieee754_unpack source loc
      = Ok (ieee754_unpack fmt_f (slice source loc (loc + 4)), loc + 4))
  /\ (loc + 8 <= seq_len source ->
      Float64_from_row_binary ieee754_unpack source loc
      = Ok (ieee754_unpack fmt_d (slice source loc (loc + 8)), loc + 8)).
Proof.
  intros Hloc.
  assert (Hgen : forall w, 0 < w ->
            (loc + w <= seq_len source -> seq_len (slice source loc (loc + w)) = w)
            /\ (seq_len source < loc + w ->
                seq_len (slice source loc (loc + w)) < w)).
  { intros w Hw. split.
    - intros Hfit. apply slice_length_full; lia.
    - intros Hshort. rewrite slice_short by lia.
      unfold seq_len in *. rewrite length_skipn. lia. }
  destruct (Hgen 4 ltac:(lia)) as [H4f H4s].
  destruct (Hgen 8 ltac:(lia)) as [H8f H8s].
  unfold Float32_from_row_binary, Float64_from_row_binary, struct_unpack.
  cbn [format_size].
  repeat split.
  - destruct (Z.eqb_spec (seq_len (slice source loc (loc + 4))) 4) as [E|E];
      cbn; [discriminate|]. intros _.
    destruct (Z_lt_le_dec (seq_len source) (loc + 4)); [assumption|].
    specialize (H4f ltac:(lia)). lia.
  - intros Hshort. specialize (H4s Hshort).
    destruct (Z.eqb_spec (seq_len (slice source loc (loc + 4))) 4); [lia|].
    reflexivity.
  - destruct (Z.eqb_spec (seq_len (slice source loc (loc + 8))) 8) as [E|E];
      cbn; [discriminate|]. intros _.
    destruct (Z_lt_le_dec (seq_len source) (loc + 8)); [assumption|].
    specialize (H8f ltac:(lia)). lia.
  - intros Hshort. specialize (H8s Hshort).
    destruct (Z.eqb_spec (seq_len (slice source loc (loc + 8))) 8); [lia|].
    reflexivity.
  - intros Hfit. rewrite (H4f Hfit). reflexivity.
  - intros Hfit. rewrite (H8f Hfit). reflexivity.
Qed.

Lemma float_decode_needs_full_width_witness :
  let unpack := fun (_ : float_format) (_ : list byte) => S754_zero false in
  0 <= 0
  /\ Float32_from_row_binary unpack (bytes_of [0; 0; 128]) 0 = Raise StructError
  /\ Float64_from_row_binary unpack (bytes_of [0; 0; 0; 0; 0; 0; 240; 63]) 0
     = Ok (S754_zero false, 0 + 8).
Proof.
  cbv zeta.
  assert (H0 : 0 <= 0) by lia.
  split; [exact H0|]. split.
  - apply (proj2 (proj1 (float_decode_needs_full_width
                           (fun _ _ => S754_zero false) (bytes_of [0; 0; 128])
                           0 H0))).
    reflexivity.
  - apply (proj2 (proj2 (proj2 (float_decode_needs_full_width
                                  (fun _ _ => S754_zero false)
                                  (bytes_of [0; 0; 0; 0; 0; 0; 240; 63]) 0 H0)))).
    cbv. discriminate.
Defined.

(** ** [Boolean] *)

(** X6.  The one decoder that indexes instead of slicing.  It raises
    [IndexError] exactly when the offset is at or past the end of the
    buffer, or further before its start than the buffer is long; otherwise
    it returns whether the byte at that offset is non-zero, with the offset
    advanced by one. *)
Theorem Boolean_decode_indexes (source : list byte) (loc : Z) :
  (Boolean_from_row_binary source loc = Raise IndexError
   <-> loc < - seq_len source \/ seq_len source <= loc)
  /\ (forall b, 0 <= loc ->
        nth_error source (Z.to_nat loc) = Some b ->
        Boolean_from_row_binary source loc
        = Ok (negb (byte_val b =? 0), loc + 1)).
Proof.
  unfold Boolean_from_row_binary, py_index. split.
  - set (j := if loc <? 0 then loc + seq_len source else loc).
    assert (Hj : j = if loc <? 0 then loc + seq_len source else loc)
      by reflexivity.
    destruct (Z.leb_spec 0 j) as [H0|H0];
      destruct (Z.ltb_spec j (seq_len source)) as [H1|H1]; cbn [andb].
    + destruct (nth_error source (Z.to_nat j)) as [b|] eqn:E.
      * cbn. split; [discriminate|].
        destruct (Z.ltb_spec loc 0); lia.
      * apply nth_error_None in E. unfold seq_len in H1. lia.
    + cbn. split; [intros _|reflexivity]. destruct (Z.ltb_spec loc 0); lia.
    + cbn. split; [intros _|reflexivity]. destruct (Z.ltb_spec loc 0); lia.
    + cbn. split; [intros _|reflexivity]. destruct (Z.ltb_spec loc 0); lia.
  - intros b Hloc Hnth.
    assert (Hlt : (Z.to_nat loc < List.length source)%nat)
      by (apply nth_error_Some; congruence).
    destruct (Z.ltb_spec loc 0); [lia|].
    destruct (Z.leb_spec 0 loc); [|lia].
    destruct (Z.ltb_spec loc (seq_len source)); [|unfold seq_len in *; lia].
    cbn [andb]. rewrite Hnth. cbn [bind]. f_equal. f_equal.
    pose proof (byte_val_range b).
    destruct (Z.eqb_spec (byte_val b) 0) as [->|]; [reflexivity|].
    cbn [negb]. apply Z.gtb_lt. lia.
Qed.

Lemma Boolean_decode_indexes_witness :
  0 <= 1
  /\ nth_error (bytes_of [0; 2]) (Z.to_nat 1) = Some (byte_of_Z 2)
  /\ Boolean_from_row_binary (bytes_of [0; 2]) 1
     = Ok (negb (byte_val (byte_of_Z 2) =? 0), 1 + 1)
  /\ Boolean_from_row_binary (bytes_of [0; 2]) 2 = Raise IndexError.
Proof.
  assert (H0 : 0 <= 1) by lia.
  assert (H1 : nth_error (bytes_of [0; 2]) (Z.to_nat 1) = Some (byte_of_Z 2))
    by reflexivity.
  split; [exact H0|]. split; [exact H1|]. split.
  - exact (proj2 (Boolean_decode_indexes (bytes_of [0; 2]) 1) _ H0 H1).
  - apply (proj2 (proj1 (Boolean_decode_indexes (bytes_of [0; 2]) 2))).
    right. cbv. discriminate.
Defined.

(** ** [UUID] *)

Lemma int_to_bytes_big_unsigned (bs : list byte) :
  int_to_bytes (le_unsigned bs) (seq_len bs) big false = Ok (rev bs).
Proof.
  pose proof (le_unsigned_bound bs) as Hu. pose proof (seq_len_nonneg bs).
  unfold int_to_bytes. destruct (Z.ltb_spec (seq_len bs) 0); [lia|].
  destruct (Z.leb_spec 0 (le_unsigned bs)); [|lia].
  destruct (Z.ltb_spec (le_unsigned bs) (2 ^ (8 * seq_len bs))); [|lia].
  cbn [andb in_order]. rewrite Z.mod_small by lia.
  unfold seq_len. rewrite Nat2Z.id, le_bytes_le_unsigned. reflexivity.
Qed.

(** X7.  On a full read the two eight-byte halves are each reversed and kept in
    place: the identifier's bytes are the first half backwards followed by
    the second half backwards. *)
Theorem UUID_decode_reverses_halves (source : list byte) (loc : Z) :
  0 <= loc -> loc + 16 <= seq_len source ->
  UUID_from_row_binary source loc
  = Ok ({| uuid_bytes := rev (slice source loc (loc + 8))
                           ++ rev (slice source (loc + 8) (loc + 16)) |},
        loc + 16).
Proof.
  intros Hloc Hfit. unfold UUID_from_row_binary.
  set (high := slice source loc (loc + 8)).
  set (low := slice source (loc + 8) (loc + 16)).
  assert (Hh : seq_len high = 8) by (apply slice_length_full; lia).
  assert (Hl : seq_len low = 8).
  { unfold low. replace (loc + 16) with (loc + 8 + 8) by lia.
    apply slice_length_full; lia. }
  rewrite !int_from_bytes_unsigned. cbn [in_order].
  rewrite <- Hh at 1. rewrite int_to_bytes_big_unsigned. cbn [bind].
  rewrite <- Hl at 1. rewrite int_to_bytes_big_unsigned. cbn [bind].
  unfold uuid_UUID.
  assert (Hlen : seq_len (rev high ++ rev low) = 16).
  { unfold seq_len in *. rewrite length_app, !length_rev. lia. }
  rewrite Hlen. reflexivity.
Qed.

Lemma UUID_decode_reverses_halves_witness :
  let source := bytes_of [1; 2; 3; 4; 5; 6; 7; 8; 9; 10; 11; 12; 13; 14; 15; 16] in
  0 <= 0 /\ 0 + 16 <= seq_len source
  /\ UUID_from_row_binary source 0
     = Ok ({| uuid_bytes := rev (slice source 0 (0 + 8))
                              ++ rev (slice source (0 + 8) (0 + 16)) |},
           0 + 16).
Proof.
  cbv zeta.
  assert (H0 : 0 <= 0) by lia.
  assert (H1 : 0 + 16 <= seq_len (bytes_of [1; 2; 3; 4; 5; 6; 7; 8; 9; 10; 11;
                                             12; 13; 14; 15; 16]))
    by (cbv; discriminate).
  split; [exact H0|]. split; [exact H1|].
  exact (UUID_decode_reverses_halves _ 0 H0 H1).
Defined.

Lemma int_to_bytes_padded (bs : list byte) (w : Z) :
  seq_len bs <= w ->
  exists out, int_to_bytes (le_unsigned bs) w big false = Ok out
              /\ seq_len out = w.
Proof.
  intros Hle. pose proof (le_unsigned_bound bs) as Hu.
  pose proof (seq_len_nonneg bs) as Hnn.
  pose proof (pow2_bytes_mono (seq_len bs) w ltac:(lia)) as Hm.
  unfold int_to_bytes. destruct (Z.ltb_spec w 0); [lia|].
  destruct (Z.leb_spec 0 (le_unsigned bs)); [|lia].
  destruct (Z.ltb_spec (le_unsigned bs) (2 ^ (8 * w))); [|lia].
  cbn [andb in_order]. eexists. split; [reflexivity|].
  unfold seq_len. rewrite length_rev, length_le_bytes. lia.
Qed.

(** X8.  The decoder never raises, whatever the buffer and the offset: missing
    bytes are made up with zeros, so an identifier of sixteen bytes comes
    back even from an empty buffer, with the offset advanced by 16. *)
Theorem UUID_decode_never_raises (source : list byte) (loc : Z) :
  exists u,
    UUID_from_row_binary source loc = Ok (u, loc + 16)
    /\ seq_len (uuid_bytes u) = 16.
Proof.
  unfold UUID_from_row_binary. rewrite !int_from_bytes_unsigned.
  cbn [in_order].
  destruct (int_to_bytes_padded (slice source loc (loc + 8)) 8) as (hi & Hhi & Lhi).
  { pose proof (slice_length_le source loc (loc + 8) ltac:(lia)). lia. }
  destruct (int_to_bytes_padded (slice source (loc + 8) (loc + 16)) 8)
    as (lo & Hlo & Llo).
  { pose proof (slice_length_le source (loc + 8) (loc + 16) ltac:(lia)). lia. }
  rewrite Hhi, Hlo. cbn [bind]. unfold uuid_UUID.
  assert (Hlen : seq_len (hi ++ lo) = 16).
  { unfold seq_len in *. rewrite length_app. lia. }
  rewrite Hlen. cbn. eexists. split; [reflexivity|exact Hlen].
Qed.

(** ** [IPv4], [IPv6], continued *)

Lemma str_IPv4Address_ok (n : Z) :
  0 <= n < 2 ^ 32 ->
  str_IPv4Address n
  = Ok (join "." (map (fun k => py_str_int ((n / 2 ^ (8 * k)) mod 256))
                      [3; 2; 1; 0])).
Proof.
  intros Hn. unfold str_IPv4Address.
  destruct (Z.leb_spec 0 n); [|lia]. destruct (Z.ltb_spec n (2 ^ 32)); [|lia].
  reflexivity.
Qed.

(** X9.  The IPv4 decoder reads its four bytes least significant first: the
    bytes [a b c d] on the wire are rendered as the text [d.c.b.a]. *)
Theorem IPv4_decode_reverses_bytes (source : list byte) (loc : Z)
    (a b c d : byte) :
  slice source loc (loc + 4) = [a; b; c; d] ->
  IPv4_from_row_binary source loc
  = Ok (join "." (map (fun x => py_str_int (byte_val x)) [d; c; b; a]), loc + 4).
Proof.
  intros Hslice. unfold IPv4_from_row_binary.
  rewrite Hslice, int_from_bytes_unsigned. cbn [in_order le_unsigned].
  pose proof (byte_val_range a) as Ha. pose proof (byte_val_range b) as Hb.
  pose proof (byte_val_range c) as Hc. pose proof (byte_val_range d) as Hd.
  set (n := byte_val a + 256 * (byte_val b + 256 * (byte_val c
             + 256 * (byte_val d + 256 * 0)))).
  assert (Hn : 0 <= n < 2 ^ 32) by (subst n; lia).
  rewrite (str_IPv4Address_ok n Hn). cbn [bind map].
  change (2 ^ (8 * 3)) with 16777216. change (2 ^ (8 * 2)) with 65536.
  change (2 ^ (8 * 1)) with 256. change (2 ^ (8 * 0)) with 1.
  assert (E3 : (n / 16777216) mod 256 = byte_val d)
    by (subst n; Z.to_euclidean_division_equations; lia).
  assert (E2 : (n / 65536) mod 256 = byte_val c)
    by (subst n; Z.to_euclidean_division_equations; lia).
  assert (E1 : (n / 256) mod 256 = byte_val b)
    by (subst n; Z.to_euclidean_division_equations; lia).
  assert (E0 : (n / 1) mod 256 = byte_val a)
    by (subst n; Z.to_euclidean_division_equations; lia).
  rewrite E3, E2, E1, E0. reflexivity.
Qed.

Lemma IPv4_decode_reverses_bytes_witness :
  let source := bytes_of [9; 192; 168; 0; 1] in
  slice source 1 (1 + 4) = [byte_of_Z 192; byte_of_Z 168; byte_of_Z 0; byte_of_Z 1]
  /\ IPv4_from_row_binary source 1 = Ok ("1.0.168.192"%string, 1 + 4).
Proof.
  cbv zeta.
  assert (H : slice (bytes_of [9; 192; 168; 0; 1]) 1 (1 + 4)
              = [byte_of_Z 192; byte_of_Z 168; byte_of_Z 0; byte_of_Z 1])
    by reflexivity.
  split; [exact H|].
  exact (IPv4_decode_reverses_bytes _ 1 _ _ _ _ H).
Defined.

Lemma slice_value_bound (source : list byte) (loc w : Z) (order : byteorder) :
  0 <= w ->
  0 <= int_from_bytes (slice source loc (loc + w)) order false < 2 ^ (8 * w).
Proof.
  intros Hw. rewrite int_from_bytes_unsigned.
  set (bs := slice source loc (loc + w)).
  pose proof (slice_length_le source loc (loc + w) ltac:(lia)) as Hlen.
  fold bs in Hlen.
  assert (Hl : seq_len (in_order order bs) = seq_len bs).
  { destruct order; [reflexivity|]. unfold seq_len. cbn [in_order].
    now rewrite length_rev. }
  pose proof (le_unsigned_bound (in_order order bs)) as Hu. rewrite Hl in Hu.
  pose proof (seq_len_nonneg bs).
  pose proof (pow2_bytes_mono (seq_len bs) w ltac:(lia)). lia.
Qed.

(** X10.  Neither address decoder ever raises: for every buffer and every
    offset, in range or not, each returns a text and the offset advanced by
    its width. *)
Theorem address_decoders_never_raise (source : list byte) (loc : Z) :
  (exists text, IPv4_from_row_binary source loc = Ok (text, loc + 4))
  /\ (exists text, IPv6_from_row_binary source loc = Ok (text, loc + 16)).
Proof.
  split.
  - unfold IPv4_from_row_binary.
    pose proof (slice_value_bound source loc 4 little ltac:(lia)) as Hb.
    change (2 ^ (8 * 4)) with (2 ^ 32) in Hb.
    rewrite (str_IPv4Address_ok _ Hb). cbn [bind]. eauto.
  - unfold IPv6_from_row_binary.
    pose proof (slice_value_bound source loc 16 big ltac:(lia)) as Hb.
    change (2 ^ (8 * 16)) with (2 ^ 128) in Hb.
    set (x := int_from_bytes (slice source loc (loc + 16)) big false) in *.
    destruct (Z.land x 0xFFFF00000000 =? 0xFFFF00000000).
    + rewrite land_low32.
      rewrite str_IPv4Address_ok by (apply Z.mod_pos_bound; lia).
      cbn [bind]. eauto.
    + unfold str_IPv6Address.
      destruct (Z.leb_spec 0 x); [|lia]. destruct (Z.ltb_spec x (2 ^ 128)); [|lia].
      cbn [andb bind]. eauto.
Qed.

(** X11.  The prefix test of the IPv6 decoder looks at bytes 10 and 11 only.
    Whenever both are [FF], whatever the ten bytes before them, the result
    is the dotted quad of the last four bytes in network order. *)
Theorem IPv6_ffff_group_renders_dotted_quad (source : list byte) (loc : Z)
    (head v4 : list byte) :
  slice source loc (loc + 16) = head ++ [xff; xff] ++ v4 ->
  List.length head = 10%nat -> List.length v4 = 4%nat ->
  exists text,
    str_IPv4Address (int_from_bytes v4 big false) = Ok text
    /\ IPv6_from_row_binary source loc = Ok (text, loc + 16).
Proof.
  intros Hslice Hhead Hv4.
  assert (Hv : 0 <= le_unsigned (rev v4) < 2 ^ 32).
  { pose proof (le_unsigned_bound (rev v4)) as H.
    unfold seq_len in H. rewrite length_rev, Hv4 in H. exact H. }
  rewrite int_from_bytes_unsigned. cbn [in_order].
  rewrite (str_IPv4Address_ok _ Hv). eexists. split; [reflexivity|].
  unfold IPv6_from_row_binary.
  rewrite Hslice, int_from_bytes_unsigned. cbn [in_order].
  rewrite !rev_app_distr. cbn [rev app]. rewrite <- app_assoc.
  pose proof (le_unsigned_bound (rev head)) as Hh.
  assert (Hx : le_unsigned (rev v4 ++ [xff; xff] ++ rev head)
               = le_unsigned (rev v4)
                 + (65535 + le_unsigned (rev head) * 2 ^ 16) * 2 ^ 32).
  { rewrite le_unsigned_app, (le_unsigned_app [xff; xff]).
    unfold seq_len. rewrite length_rev, Hv4. cbn [List.length].
    change (8 * Z.of_nat 4) with 32. change (8 * Z.of_nat 2) with 16.
    change (le_unsigned [xff; xff]) with 65535. ring. }
  rewrite Hx.
  set (h := le_unsigned (rev head)) in *. set (v := le_unsigned (rev v4)) in *.
  rewrite land_group_mask, land_low32.
  rewrite Z.div_add, (Z.div_small v), Z.add_0_l by lia.
  rewrite (Z.mod_add 65535), (Z.mod_add v), (Z.mod_small v) by lia.
  change (65535 mod 2 ^ 16 * 2 ^ 32 =? 0xFFFF00000000) with true. cbv iota.
  rewrite (str_IPv4Address_ok _ Hv). reflexivity.
Qed.

Lemma IPv6_ffff_group_renders_dotted_quad_witness :
  let source :=
    bytes_of [0x20; 0x01; 0x0d; 0xb8; 0; 0; 0; 0; 0; 0; 255; 255; 1; 2; 3; 4] in
  let head := bytes_of [0x20; 0x01; 0x0d; 0xb8; 0; 0; 0; 0; 0; 0] in
  let v4 := bytes_of [1; 2; 3; 4] in
  slice source 0 (0 + 16) = head ++ [xff; xff] ++ v4
  /\ List.length head = 10%nat /\ List.length v4 = 4%nat
  /\ exists text,
       str_IPv4Address (int_from_bytes v4 big false) = Ok text
       /\ IPv6_from_row_binary source 0 = Ok (text, 0 + 16).
Proof.
  cbv zeta.
  assert (H : slice (bytes_of [0x20; 0x01; 0x0d; 0xb8; 0; 0; 0; 0; 0; 0;
                               255; 255; 1; 2; 3; 4]) 0 (0 + 16)
              = bytes_of [0x20; 0x01; 0x0d; 0xb8; 0; 0; 0; 0; 0; 0]
                ++ [xff; xff] ++ bytes_of [1; 2; 3; 4]) by reflexivity.
  split; [exact H|]. split; [reflexivity|]. split; [reflexivity|].
  exact (IPv6_ffff_group_renders_dotted_quad _ 0 _ _ H eq_refl eq_refl).
Defined.

(** ** [DateTime] *)

Lemma fromtimestamp_uint32 (e : Z) (tz : tzinfo) :
  0 <= e < 2 ^ 32 ->
  fromtimestamp e tz
  = Ok {| epoch_seconds := e; microsecond := 0; dt_tzinfo := tz |}.
Proof.
  intros He. pose proof (utcoffset_bound tz e).
  apply fromtimestamp_in_range;
    unfold in_datetime_range, datetime_min, datetime_max;
    apply andb_true_iff; split; apply Z.leb_le; lia.
Qed.

Lemma int_timestamp_whole (e : Z) (tz : tzinfo) :
  int_timestamp {| epoch_seconds := e; microsecond := 0; dt_tzinfo := tz |} = e.
Proof.
  unfold int_timestamp. cbn [epoch_seconds microsecond].
  rewrite Z.add_0_r. apply Z.quot_mul. lia.
Qed.

Lemma DateTime_decode_value (self : DateTime) (source : list byte) (loc : Z) :
  let e := int_from_bytes (slice source loc (loc + 4)) little false in
  0 <= e < 2 ^ 32
  /\ DateTime_from_row_binary self source loc
     = Ok ({| epoch_seconds := e; microsecond := 0;
              dt_tzinfo := DateTime_tzinfo self |}, loc + 4).
Proof.
  cbv zeta.
  pose proof (slice_value_bound source loc 4 little ltac:(lia)) as Hb.
  change (2 ^ (8 * 4)) with (2 ^ 32) in Hb. split; [exact Hb|].
  unfold DateTime_from_row_binary. rewrite (fromtimestamp_uint32 _ _ Hb).
  reflexivity.
Qed.

(** X12.  The decoder never raises: whatever the buffer and the offset it
    returns a whole-second instant between the epoch and [2^32 - 1] seconds
    after it, in the codec's zone, with the offset advanced by 4. *)
Theorem DateTime_decode_never_raises (self : DateTime) (source : list byte)
    (loc : Z) :
  exists e,
    0 <= e < 2 ^ 32
    /\ DateTime_from_row_binary self source loc
       = Ok ({| epoch_seconds := e; microsecond := 0;
                dt_tzinfo := DateTime_tzinfo self |}, loc + 4).
Proof.
  exists (int_from_bytes (slice source loc (loc + 4)) little false).
  exact (DateTime_decode_value self source loc).
Qed.

(** X13.  Encoding writes the whole seconds signed, decoding reads them
    unsigned.  For an instant within the signed 32-bit range the encoding
    succeeds and decoding the result gives the instant's whole seconds
    modulo [2^32], sub-second part dropped: the same second from the epoch
    on, and a second [2^32] later for an instant before the epoch. *)
Theorem DateTime_encode_then_decode (self : DateTime) (v : datetime)
    (dest : list byte) :
  - 2 ^ 31 <= int_timestamp v < 2 ^ 31 ->
  exists dest',
    DateTime_to_row_binary v dest = Ok dest'
    /\ DateTime_from_row_binary self dest' (seq_len dest)
       = Ok ({| epoch_seconds := int_timestamp v mod 2 ^ 32; microsecond := 0;
                dt_tzinfo := DateTime_tzinfo self |}, seq_len dest + 4).
Proof.
  intros Hr.
  destruct (int_to_bytes_representable (int_timestamp v) 4 true ltac:(lia))
    as [bs Hbs]; [exact Hr|].
  destruct (int_to_bytes_value _ _ _ _ Hbs) as [Hlen Hval].
  exists (dest ++ bs). unfold DateTime_to_row_binary. rewrite Hbs.
  split; [reflexivity|].
  unfold DateTime_from_row_binary.
  rewrite <- Hlen, slice_appended, int_from_bytes_unsigned. cbn [in_order].
  rewrite Hval, Hlen. change (2 ^ (8 * 4)) with (2 ^ 32).
  rewrite fromtimestamp_uint32 by (apply Z.mod_pos_bound; lia).
  reflexivity.
Qed.

Lemma DateTime_encode_then_decode_witness :
  let v := {| epoch_seconds := -1; microsecond := 0; dt_tzinfo := timezone_utc |} in
  let self := {| DateTime_tzinfo := timezone_utc |} in
  - 2 ^ 31 <= int_timestamp v < 2 ^ 31
  /\ exists dest',
       DateTime_to_row_binary v [] = Ok dest'
       /\ DateTime_from_row_binary self dest' (seq_len (@nil byte))
          = Ok ({| epoch_seconds := int_timestamp v mod 2 ^ 32; microsecond := 0;
                   dt_tzinfo := DateTime_tzinfo self |},
                seq_len (@nil byte) + 4).
Proof.
  cbv zeta.
  assert (H : - 2 ^ 31
              <= int_timestamp {| epoch_seconds := -1; microsecond := 0;
                                  dt_tzinfo := timezone_utc |} < 2 ^ 31)
    by (cbv; split; [discriminate|reflexivity]).
  split; [exact H|].
  exact (DateTime_encode_then_decode {| DateTime_tzinfo := timezone_utc |} _ [] H).
Defined.

(** X14.  What the decoder can return is not always accepted back: an instant
    it produced at [2^31] seconds or later (from 2038-01-19 on) makes the
    encoder raise [OverflowError]. *)
Theorem DateTime_decoded_instant_may_not_encode (self : DateTime)
    (source dest : list byte) (loc loc' : Z) (dt : datetime) :
  DateTime_from_row_binary self source loc = Ok (dt, loc') ->
  2 ^ 31 <= epoch_seconds dt ->
  DateTime_to_row_binary dt dest = Raise OverflowError.
Proof.
  intros Hdec Hlate.
  destruct (DateTime_decode_value self source loc) as [He Heq].
  cbv zeta in He, Heq.
  set (e := int_from_bytes (slice source loc (loc + 4)) little false) in *.
  rewrite Heq in Hdec. injection Hdec as <- _. cbn [epoch_seconds] in Hlate.
  unfold DateTime_to_row_binary. rewrite int_timestamp_whole.
  assert (Hover : int_to_bytes e 4 little true = Raise OverflowError).
  { apply int_to_bytes_overflow_iff; [lia|]. unfold representable.
    change (2 ^ (8 * 4 - 1)) with (2 ^ 31). lia. }
  rewrite Hover. reflexivity.
Qed.

Lemma DateTime_decoded_instant_may_not_encode_witness :
  let self := {| DateTime_tzinfo := timezone_utc |} in
  let source := bytes_of [0; 0; 0; 128] in
  let dt := {| epoch_seconds := 2147483648; microsecond := 0;
               dt_tzinfo := timezone_utc |} in
  DateTime_from_row_binary self source 0 = Ok (dt, 4)
  /\ 2 ^ 31 <= epoch_seconds dt
  /\ DateTime_to_row_binary dt [] = Raise OverflowError.
Proof.
  cbv zeta.
  assert (H1 : DateTime_from_row_binary {| DateTime_tzinfo := timezone_utc |}
                 (bytes_of [0; 0; 0; 128]) 0
               = Ok ({| epoch_seconds := 2147483648; microsecond := 0;
                        dt_tzinfo := timezone_utc |}, 4))
    by (vm_compute; reflexivity).
  assert (H2 : 2 ^ 31 <= epoch_seconds
                           {| epoch_seconds := 2147483648; microsecond := 0;
                              dt_tzinfo := timezone_utc |})
    by (cbv; discriminate).
  split; [exact H1|]. split; [exact H2|].
  exact (DateTime_decoded_instant_may_not_encode _ _ [] 0 4 _ H1 H2).
Defined.

(** ** [Date], [Date32] *)

Lemma Date_decode_value (source : list byte) (loc : Z) :
  let d := int_from_bytes (slice source loc (loc + 2)) little false in
  0 <= d < 65536
  /\ Date_from_row_binary source loc = Ok ({| days_from_epoch := d |}, loc + 2).
Proof.
  cbv zeta.
  pose proof (slice_value_bound source loc 2 little ltac:(lia)) as Hb.
  change (2 ^ (8 * 2)) with 65536 in Hb.
  split; [exact Hb|].
  unfold Date_from_row_binary.
  set (d := int_from_bytes (slice source loc (loc + 2)) little false) in *.
  rewrite fromtimestamp_in_range
    by (unfold in_datetime_range, datetime_min, datetime_max;
        cbn [utcoffset timezone_utc];
        apply andb_true_iff; split; apply Z.leb_le; lia).
  cbn [bind]. unfold datetime_date.
  cbn [epoch_seconds dt_tzinfo utcoffset timezone_utc].
  rewrite Z.add_0_r, Z.div_mul by lia. reflexivity.
Qed.

(** X16.  The [Date] decoder never raises: it returns the day whose number,
    counted from 1970-01-01, is the unsigned value of the (at most two)
    bytes read, so a day from 0 to 65535, with the offset advanced by 2. *)
Theorem Date_decode_never_raises (source : list byte) (loc : Z) :
  exists d,
    0 <= d < 65536
    /\ d = int_from_bytes (slice source loc (loc + 2)) little false
    /\ Date_from_row_binary source loc = Ok ({| days_from_epoch := d |}, loc + 2).
Proof.
  exists (int_from_bytes (slice source loc (loc + 2)) little false).
  destruct (Date_decode_value source loc) as [Hb Heq].
  split; [exact Hb|]. split; [reflexivity|exact Heq].
Qed.

(** X17.  The [Date] encoder writes the day number signed, the decoder reads it
    unsigned.  For a [datetime] whose day number fits sixteen signed bits
    the encoding succeeds and decoding the result gives that day number
    modulo 65536: the same day from the epoch on, a day 65536 later for a
    day before the epoch. *)
Theorem Date_encode_then_decode (v : datetime) (dest : list byte) :
  - 32768 <= int_timestamp v / 86400 < 32768 ->
  exists dest',
    Date_to_row_binary v dest = Ok dest'
    /\ Date_from_row_binary dest' (seq_len dest)
       = Ok ({| days_from_epoch := (int_timestamp v / 86400) mod 65536 |},
             seq_len dest + 2).
Proof.
  intros Hr. set (q := int_timestamp v / 86400) in *.
  destruct (int_to_bytes_representable q 2 true ltac:(lia)) as [bs Hbs].
  { unfold representable. change (2 ^ (8 * 2 - 1)) with 32768. lia. }
  destruct (int_to_bytes_value _ _ _ _ Hbs) as [Hlen Hval].
  exists (dest ++ bs). unfold Date_to_row_binary. fold q. rewrite Hbs.
  split; [reflexivity|].
  destruct (Date_decode_value (dest ++ bs) (seq_len dest)) as [_ Heq].
  cbv zeta in Heq. rewrite Heq. f_equal. f_equal. f_equal.
  rewrite <- Hlen, slice_appended, int_from_bytes_unsigned.
  cbn [in_order]. rewrite Hval. reflexivity.
Qed.

Lemma Date_encode_then_decode_witness :
  let v := {| epoch_seconds := 86400 * 19000 + 5; microsecond := 7;
              dt_tzinfo := timezone_utc |} in
  - 32768 <= int_timestamp v / 86400 < 32768
  /\ exists dest',
       Date_to_row_binary v [] = Ok dest'
       /\ Date_from_row_binary dest' (seq_len (@nil byte))
          = Ok ({| days_from_epoch := (int_timestamp v / 86400) mod 65536 |},
                seq_len (@nil byte) + 2).
Proof.
  cbv zeta.
  assert (H : - 32768
              <= int_timestamp {| epoch_seconds := 86400 * 19000 + 5;
                                  microsecond := 7;
                                  dt_tzinfo := timezone_utc |} / 86400 < 32768)
    by (cbv; split; [discriminate|reflexivity]).
  split; [exact H|].
  exact (Date_encode_then_decode _ [] H).
Defined.

(** X18.  The [Date] encoder raises [OverflowError] exactly when the day number
    of its argument does not fit sixteen signed bits; in particular the
    days 32768..65535 that the decoder can return are refused. *)
Theorem Date_encode_overflow_iff (v : datetime) (dest : list byte) :
  Date_to_row_binary v dest = Raise OverflowError
  <-> ~ (- 32768 <= int_timestamp v / 86400 < 32768).
Proof.
  unfold Date_to_row_binary.
  pose proof (int_to_bytes_overflow_iff (int_timestamp v / 86400) 2 true
                ltac:(lia)) as H.
  unfold representable in H. change (2 ^ (8 * 2 - 1)) with 32768 in H.
  rewrite <- H.
  destruct (int_to_bytes (int_timestamp v / 86400) 2 little true) as [bs|e];
    cbn [bind]; split; congruence.
Qed.

(** X19.  [Date32] reads a signed day count.  When the four bytes at the offset
    are the signed encoding of [d], the decode is the day [d] from
    1970-01-01 if that day lies within years 1..9999, and an
    [OverflowError] otherwise; most of the signed 32-bit range is therefore
    refused. *)
Theorem Date32_decode_signed_days (source : list byte) (loc d : Z) :
  int_to_bytes d 4 little true = Ok (slice source loc (loc + 4)) ->
  Date32_from_row_binary source loc
  = if (date_min <=? d) && (d <=? date_max)
    then Ok ({| days_from_epoch := d |}, loc + 4)
    else Raise OverflowError.
Proof.
  intros Hbytes.
  destruct (int_from_bytes_to_bytes _ _ _ _ Hbytes) as [_ Hd]; [lia|].
  unfold Date32_from_row_binary, date_add_days. rewrite Hd.
  cbn [days_from_epoch Date32_start_date]. rewrite Z.add_0_l.
  unfold date_min, date_max.
  destruct (Z.leb_spec (-719162) d); destruct (Z.leb_spec d 2932896);
    cbn [andb]; rewrite ?andb_false_r; try reflexivity.
  destruct (Z.leb_spec (Z.abs d) 999999999); [reflexivity|lia].
Qed.

Lemma Date32_decode_signed_days_witness :
  int_to_bytes (-1) 4 little true
  = Ok (slice (bytes_of [255; 255; 255; 255]) 0 (0 + 4))
  /\ Date32_from_row_binary (bytes_of [255; 255; 255; 255]) 0
     = Ok ({| days_from_epoch := -1 |}, 0 + 4).
Proof.
  assert (H : int_to_bytes (-1) 4 little true
              = Ok (slice (bytes_of [255; 255; 255; 255]) 0 (0 + 4)))
    by (vm_compute; reflexivity).
  split; [exact H|].
  exact (Date32_decode_signed_days _ 0 (-1) H).
Defined.

(** ** [DateTime64], continued *)

(** X20.  Every successful decode of a codec constructed with a scale of
    zero or more returns the second that contains the tick count,
    [seconds * prec <= ticks < (seconds + 1) * prec] with [prec = 10^scale],
    a microsecond field inside [0, 10^6), the codec's zone, and the offset
    advanced by 8.  The microseconds never spill into the seconds, before
    the epoch either. *)
Theorem DateTime64_decode_invariant
    (float_prec_decode : Z -> Z -> tzinfo -> result datetime)
    (pytz_timezone : string -> result tzinfo)
    (type_def : TypeDef.t) (self : DateTime64) (scale : Z)
    (source : list byte) (loc loc' : Z) (dt : datetime) :
  DateTime64_init pytz_timezone type_def = Ok self ->
  values_at type_def 0 = Ok (VInt scale) ->
  0 <= scale ->
  DateTime64_from_row_binary float_prec_decode self source loc = Ok (dt, loc') ->
  let ticks := int_from_bytes (slice source loc (loc + 8)) little true in
  let prec := 10 ^ scale in
  epoch_seconds dt * prec <= ticks < (epoch_seconds dt + 1) * prec
  /\ 0 <= microsecond dt < 1000000
  /\ dt_tzinfo dt = DateTime64_tzinfo self
  /\ loc' = loc + 8.
Proof.
  intros Hinit Hscale Hs Hdec ticks prec.
  pose proof (DateTime64_init_prec _ _ _ _ Hinit Hscale Hs) as Hprec.
  fold prec in Hprec.
  assert (Hp : 0 < prec) by (apply Z.pow_pos_nonneg; lia).
  destruct (in_datetime_range (ticks / prec)) eqn:Hutc.
  - destruct (in_datetime_range
                (ticks / prec + utcoffset (DateTime64_tzinfo self) (ticks / prec)))
      eqn:Hlocal.
    + rewrite (DateTime64_decode_value float_prec_decode self source loc ticks
                 prec Hprec Hp eq_refl Hutc Hlocal) in Hdec.
      injection Hdec as <- <-. cbn [epoch_seconds microsecond dt_tzinfo].
      pose proof (Z.mod_pos_bound ticks prec Hp) as Hr.
      pose proof (Z.div_mod ticks prec ltac:(lia)) as Hdm.
      repeat split; try nia.
      * apply Z.div_pos; lia.
      * apply Z.div_lt_upper_bound; nia.
    + exfalso. unfold DateTime64_from_row_binary, floordiv in Hdec.
      rewrite Hprec in Hdec. fold ticks in Hdec.
      destruct (Z.eqb_spec prec 0); [lia|]. cbn [bind] in Hdec.
      unfold fromtimestamp in Hdec. rewrite Hutc, Hlocal in Hdec. discriminate.
  - exfalso. unfold DateTime64_from_row_binary, floordiv in Hdec.
    rewrite Hprec in Hdec. fold ticks in Hdec.
    destruct (Z.eqb_spec prec 0); [lia|]. cbn [bind] in Hdec.
    unfold fromtimestamp in Hdec. rewrite Hutc in Hdec. discriminate.
Qed.

Lemma DateTime64_decode_invariant_witness :
  let float_path := fun (_ _ : Z) (_ : tzinfo) => @Raise datetime ValueError in
  let pytz := fun _ : string => Raise UnknownTimeZoneError in
  let td := type_def_of 0 [VInt 3] in
  let self := {| DateTime64_name_suffix := EmptyString;
                 DateTime64_prec := IntPower 1000;
                 DateTime64_tzinfo := timezone_utc |} in
  let source := bytes_of [255; 255; 255; 255; 255; 255; 255; 255] in
  let dt := {| epoch_seconds := -1; microsecond := 999000;
               dt_tzinfo := timezone_utc |} in
  DateTime64_init pytz td = Ok self
  /\ values_at td 0 = Ok (VInt 3)
  /\ 0 <= 3
  /\ DateTime64_from_row_binary float_path self source 0 = Ok (dt, 8)
  /\ epoch_seconds dt * 10 ^ 3 <= -1 < (epoch_seconds dt + 1) * 10 ^ 3
  /\ 0 <= microsecond dt < 1000000.
Proof.
  cbv zeta.
  assert (H1 : DateTime64_init (fun _ : string => Raise UnknownTimeZoneError)
                 (type_def_of 0 [VInt 3])
               = Ok {| DateTime64_name_suffix := EmptyString;
                       DateTime64_prec := IntPower 1000;
                       DateTime64_tzinfo := timezone_utc |}) by reflexivity.
  assert (Hv : values_at (type_def_of 0 [VInt 3]) 0 = Ok (VInt 3)) by reflexivity.
  assert (H0 : 0 <= 3) by lia.
  assert (H2 : DateTime64_from_row_binary
                 (fun (_ _ : Z) (_ : tzinfo) => Raise ValueError)
                 {| DateTime64_name_suffix := EmptyString;
                    DateTime64_prec := IntPower 1000;
                    DateTime64_tzinfo := timezone_utc |}
                 (bytes_of [255; 255; 255; 255; 255; 255; 255; 255]) 0
               = Ok ({| epoch_seconds := -1; microsecond := 999000;
                        dt_tzinfo := timezone_utc |}, 8))
    by (vm_compute; reflexivity).
  split; [exact H1|]. split; [exact Hv|]. split; [exact H0|]. split; [exact H2|].
  destruct (DateTime64_decode_invariant _ _ _ _ 3 _ 0 8 _ H1 Hv H0 H2)
    as (Ha & Hb & _).
  split; [exact Ha|exact Hb].
Defined.

(** ** [FixedString], continued *)

(** X21.  Under method ['decode'] with the ['hex'] fallback, a read returns the
    decoded text when the bytes are valid in the encoding, their hex
    rendering when the decoder reports [UnicodeDecodeError], and lets any
    other error of the decoder (an unknown encoding, say) through. *)
Theorem FixedString_decode_method_with_hex_fallback
    (bytes_decode : list byte -> string -> result string)
    (cls : class_attrs) (self : FixedString) (n : Z)
    (source : list byte) (loc : Z) (encoding : string) :
  FixedString_size self = VInt n ->
  FixedString_from_row_binary bytes_decode
    (fixed_string_handling "decode" encoding "hex" cls) self source loc
  = match bytes_decode (slice source loc (loc + n)) encoding with
    | Ok text => Ok (Str text, loc + n)
    | Raise UnicodeDecodeError =>
        Ok (Str (hexlify (slice source loc (loc + n))), loc + n)
    | Raise e => Raise e
    end.
Proof.
  intros Hsize. unfold FixedString_from_row_binary. rewrite Hsize. cbn.
  destruct (bytes_decode (slice source loc (loc + n)) encoding) as [text|[]];
    reflexivity.
Qed.

Lemma FixedString_decode_method_with_hex_fallback_witness :
  let self := {| FixedString_size := VInt 2; FixedString_name_suffix := "(2)" |} in
  let decode := utf8_bytes_decode (fun _ _ => Raise LookupError) in
  FixedString_size self = VInt 2
  /\ FixedString_from_row_binary decode
       (fixed_string_handling "decode" "utf8" "hex" class_defaults) self
       (bytes_of [195; 40]) 0
     = Ok (Str "c328", 0 + 2)
  /\ FixedString_from_row_binary decode
       (fixed_string_handling "decode" "utf8" "hex" class_defaults) self
       (bytes_of [65; 66]) 0
     = Ok (Str "AB", 0 + 2).
Proof.
  cbv zeta. split; [reflexivity|]. split.
  - exact (FixedString_decode_method_with_hex_fallback
             (utf8_bytes_decode (fun _ _ => Raise LookupError)) class_defaults
             {| FixedString_size := VInt 2; FixedString_name_suffix := "(2)" |} 2
             (bytes_of [195; 40]) 0 "utf8" eq_refl).
  - exact (FixedString_decode_method_with_hex_fallback
             (utf8_bytes_decode (fun _ _ => Raise LookupError)) class_defaults
             {| FixedString_size := VInt 2; FixedString_name_suffix := "(2)" |} 2
             (bytes_of [65; 66]) 0 "utf8" eq_refl).
Defined.

(** X22.  Under method ['hex'] no read succeeds: whatever the earlier settings,
    the buffer and the offset, every decode of a [FixedString] raises
    [TypeError]. *)
Theorem FixedString_hex_method_unusable
    (bytes_decode : list byte -> string -> result string)
    (cls : class_attrs) (self : FixedString) (n : Z)
    (source : list byte) (loc : Z) (encoding encoding_error : string) :
  FixedString_size self = VInt n ->
  FixedString_from_row_binary bytes_decode
    (fixed_string_handling "hex" encoding encoding_error cls) self source loc
  = Raise TypeError.
Proof.
  intros Hsize. unfold FixedString_from_row_binary. rewrite Hsize. reflexivity.
Qed.

Lemma FixedString_hex_method_unusable_witness :
  let self := {| FixedString_size := VInt 2; FixedString_name_suffix := "(2)" |} in
  FixedString_size self = VInt 2
  /\ FixedString_from_row_binary
       (utf8_bytes_decode (fun _ _ => Raise LookupError))
       (fixed_string_handling "hex" "utf8" "hex"
          (fixed_string_handling "decode" "utf8" "hex" class_defaults))
       self (bytes_of [65; 66]) 0
     = Raise TypeError.
Proof.
  cbv zeta. split; [reflexivity|].
  exact (FixedString_hex_method_unusable
           (utf8_bytes_decode (fun _ _ => Raise LookupError)) _
           {| FixedString_size := VInt 2; FixedString_name_suffix := "(2)" |} 2
           (bytes_of [65; 66]) 0 "utf8" "hex" eq_refl).
Defined.

(** X23.  The two policy functions touch disjoint class attributes, so they can
    be called in either order with the same outcome. *)
Theorem policy_functions_commute (method encoding encoding_error mode : string)
    (cls : class_attrs) :
  fixed_string_handling method encoding encoding_error (uint64_handling mode cls)
  = uint64_handling mode
      (fixed_string_handling method encoding encoding_error cls).
Proof.
  unfold fixed_string_handling, uint64_handling, with_transform.
  destruct (String.eqb method "raw"); [reflexivity|].
  destruct (String.eqb method "decode"); [reflexivity|].
  destruct (String.eqb method "hex"); reflexivity.
Qed.

(** ** [Decimal]: what the decoder returns *)

Lemma list_ascii_of_string_app (s t : string) :
  list_ascii_of_string (s ++ t)
  = list_ascii_of_string s ++ list_ascii_of_string t.
Proof.
  induction s as [|c s IH]; [reflexivity|]. cbn. now rewrite IH.
Qed.

Lemma uint_chars_are_digits (d : Decimal.uint) :
  forallb is_digit (list_ascii_of_string (DecimalString.NilEmpty.string_of_uint d)) = true.
Proof.
  induction d; cbn [DecimalString.NilEmpty.string_of_uint list_ascii_of_string forallb];
    try reflexivity; rewrite IHd; reflexivity.
Qed.

Lemma int_of_digits_acc (d : Decimal.uint) (acc : positive) :
  fold_left (fun a c => 10 * a + digit_val c)
    (list_ascii_of_string (DecimalString.NilEmpty.string_of_uint d)) (Z.pos acc)
  = Z.pos (Pos.of_uint_acc d acc).
Proof.
  revert acc.
  induction d; intros acc;
    cbn [DecimalString.NilEmpty.string_of_uint list_ascii_of_string fold_left Pos.of_uint_acc];
    try reflexivity;
    match goal with
    | |- fold_left _ _ ?start = Z.pos (Pos.of_uint_acc _ ?next) =>
        replace start with (Z.pos next)
          by (unfold digit_val;
              match goal with
              | |- context [N_of_ascii ?c] =>
                  let v := eval vm_compute in (Z.of_N (N_of_ascii c)) in
                  change (Z.of_N (N_of_ascii c)) with v
              end; lia)
    end; apply IHd.
Qed.

Lemma int_of_digits_uint (d : Decimal.uint) :
  int_of_digits (list_ascii_of_string (DecimalString.NilEmpty.string_of_uint d))
  = Z.of_N (Pos.of_uint d).
Proof.
  unfold int_of_digits.
  induction d;
    cbn [DecimalString.NilEmpty.string_of_uint list_ascii_of_string fold_left Pos.of_uint];
    try reflexivity;
    try exact IHd;
    match goal with
    | |- fold_left _ _ ?start = Z.of_N (N.pos (Pos.of_uint_acc _ ?next)) =>
        change start with (Z.pos next)
    end; apply int_of_digits_acc.
Qed.

(** [str(u)] for a non-negative [u]: digits only, at least one, spelling
    [u]. *)
Lemma py_str_int_digits (u : Z) :
  0 <= u ->
  let cs := list_ascii_of_string (py_str_int u) in
  forallb is_digit cs = true /\ cs <> [] /\ int_of_digits cs = u.
Proof.
  intros Hu. cbv zeta. unfold py_str_int.
  destruct u as [|p|p]; [repeat split; discriminate| |lia].
  cbn [Z.to_int DecimalString.NilZero.string_of_int].
  unfold DecimalString.NilZero.string_of_uint.
  pose proof (Unsigned.to_uint_nonnil p) as Hnn.
  pose proof (Unsigned.of_to p) as Hof.
  destruct (Pos.to_uint p) eqn:E; try contradiction;
    (split; [apply uint_chars_are_digits|];
     split; [discriminate|];
     rewrite int_of_digits_uint, Hof; reflexivity).
Qed.

Lemma take_drop_digits_at_point (a b : list ascii) :
  forallb is_digit a = true ->
  take_digits (a ++ "."%char :: b) = a
  /\ drop_digits (a ++ "."%char :: b) = "."%char :: b.
Proof.
  induction a as [|c a IH]; intros Ha; [split; reflexivity|].
  cbn in Ha. apply andb_true_iff in Ha as [Hc Ha].
  cbn [app take_digits drop_digits]. rewrite Hc.
  destruct (IH Ha) as [-> ->]. split; reflexivity.
Qed.

Lemma sign_of_plain_numeral (c : ascii) (r : list ascii) :
  is_digit c = true \/ c = "."%char ->
  match c :: r with
  | "-"%char :: r' => (true, r')
  | "+"%char :: r' => (false, r')
  | _ => (false, c :: r)
  end = (false, c :: r).
Proof.
  destruct c as [[] [] [] [] [] [] [] []]; try reflexivity;
    intros [H|H]; discriminate H.
Qed.

Lemma Decimal_of_string_numeral (negative : bool) (a b : list ascii) :
  forallb is_digit a = true -> forallb is_digit b = true -> a ++ b <> [] ->
  Decimal_of_string
    (string_of_list_ascii
       ((if negative then ["-"%char] else []) ++ a ++ "."%char :: b))
  = Ok {| dec_sign := negative;
          dec_coefficient := int_of_digits (a ++ b);
          dec_exponent := - seq_len b |}.
Proof.
  intros Ha Hb Hne. unfold Decimal_of_string.
  rewrite list_ascii_of_string_of_list_ascii.
  destruct (take_drop_digits_at_point a b Ha) as [Ht Hd].
  assert (Hlen : Nat.eqb (List.length (a ++ b)) 0 = false).
  { destruct (a ++ b); [contradiction|reflexivity]. }
  destruct negative.
  - cbn [app]. rewrite Ht, Hd, Hb, Hlen. reflexivity.
  - cbn [app].
    assert (Hsign : match a ++ "."%char :: b with
                    | "-"%char :: r' => (true, r')
                    | "+"%char :: r' => (false, r')
                    | _ => (false, a ++ "."%char :: b)
                    end = (false, a ++ "."%char :: b)).
    { destruct a as [|c a']; [reflexivity|]. cbn [app].
      apply sign_of_plain_numeral. left. cbn in Ha.
      now apply andb_true_iff in Ha as [Hc _]. }
    rewrite Hsign, Ht, Hd, Hb, Hlen. reflexivity.
Qed.

(** X24.  For a codec with a non-negative integer scale, the decoder never
    raises and returns the following.  The coefficient is the unsigned
    value [u] of the bytes read; the sign is set exactly when [u] is zero;
    the exponent is minus the scale when [u] has at least that many
    digits, and minus the number of digits of [u] when it has fewer or when
    the scale is zero.  The result is therefore [u / 10^scale] only for a
    positive scale and an [u] of at least [scale] digits. *)
Theorem Decimal_decode_value (self : Decimal) (source : list byte)
    (loc scale : Z) :
  Decimal_prec self = VInt scale -> 0 <= scale ->
  let u := Decimal_unscaled self source loc in
  let ndigits := Z.of_nat (String.length (py_str_int u)) in
  Decimal_from_row_binary self source loc
  = Ok ({| dec_sign := (u =? 0);
           dec_coefficient := u;
           dec_exponent :=
             - (if scale =? 0 then ndigits else Z.min scale ndigits) |},
        loc + Decimal_size self).
Proof.
  intros Hprec Hscale u ndigits.
  pose proof (Decimal_unscaled_nonneg self source loc) as Hu. fold u in Hu.
  unfold Decimal_from_row_binary, Decimal_text. fold u. rewrite Hprec.
  assert (Hneg : (if u <=? 0 then ("-"%string, - u) else (EmptyString, u))
                 = ((if u =? 0 then "-"%string else EmptyString), u)).
  { destruct (Z.leb_spec u 0); destruct (Z.eqb_spec u 0); try lia;
      [subst u|]; try reflexivity.
    match goal with H : _ = 0 |- _ => rewrite H end. reflexivity. }
  rewrite Hneg.
  destruct (py_str_int_digits u Hu) as (Hdig & Hnonnil & Hval).
  set (cs := list_ascii_of_string (py_str_int u)) in *.
  assert (Hn : ndigits = seq_len cs).
  { unfold ndigits, seq_len, cs. f_equal.
    clear. induction (py_str_int u) as [|c s IH]; [reflexivity|].
    cbn. now rewrite IH. }
  set (k := Z.to_nat (slice_index (seq_len cs) (- scale))).
  assert (Ha : py_slice cs None (Some (- scale)) = firstn k cs).
  { unfold py_slice. cbn [skipn Z.to_nat]. rewrite Z.sub_0_r. reflexivity. }
  assert (Hb : py_slice cs (Some (- scale)) None = skipn k cs).
  { unfold py_slice. fold k. apply firstn_all2.
    rewrite length_skipn. unfold k, slice_index, seq_len.
    destruct (Z.ltb_spec (- scale) 0); lia. }
  unfold str_slice. fold cs. rewrite Ha, Hb. cbn [bind].
  assert (Htext : ((if (u =? 0)%Z then "-" else EmptyString)
                   ++ string_of_list_ascii (firstn k cs) ++ "."
                   ++ string_of_list_ascii (skipn k cs))%string
                  = string_of_list_ascii
                      ((if u =? 0 then ["-"%char] else [])
                       ++ firstn k cs ++ "."%char :: skipn k cs)).
  { rewrite <- (string_of_list_ascii_of_string (_ ++ _)%string).
    f_equal. rewrite !list_ascii_of_string_app.
    rewrite !list_ascii_of_string_of_list_ascii.
    destruct (u =? 0); reflexivity. }
  rewrite Htext.
  rewrite Decimal_of_string_numeral.
  - cbn [bind]. rewrite firstn_skipn, Hval. f_equal. f_equal. f_equal. f_equal.
    rewrite Hn. unfold seq_len at 1. rewrite length_skipn.
    unfold k, slice_index, seq_len.
    destruct (Z.ltb_spec (- scale) 0); destruct (Z.eqb_spec scale 0); lia.
  - rewrite <- (firstn_skipn k cs) in Hdig. rewrite forallb_app in Hdig.
    now apply andb_true_iff in Hdig as [H _].
  - rewrite <- (firstn_skipn k cs) in Hdig. rewrite forallb_app in Hdig.
    now apply andb_true_iff in Hdig as [_ H].
  - rewrite firstn_skipn. exact Hnonnil.
Qed.

Lemma Decimal_decode_value_witness :
  let self := {| Decimal_name_suffix := EmptyString;
                 Decimal_prec := VInt 4; Decimal_size := 4 |} in
  Decimal_prec self = VInt 4 /\ 0 <= 4
  /\ Decimal_from_row_binary self (bytes_of [42; 0; 0; 0]) 0
     = Ok ({| dec_sign := false; dec_coefficient := 42; dec_exponent := -2 |},
           4).
Proof.
  cbv zeta.
  assert (H0 : 0 <= 4) by lia.
  split; [reflexivity|]. split; [exact H0|].
  exact (Decimal_decode_value
           {| Decimal_name_suffix := EmptyString;
              Decimal_prec := VInt 4; Decimal_size := 4 |}
           (bytes_of [42; 0; 0; 0]) 0 4 eq_refl H0).
Defined.

(** ** [DateTime], continued *)

(** X15.  Re-encoding an instant decoded from a full four-byte read appends
    exactly the bytes that were read, provided the instant lies before
    [2^31] seconds. *)
Theorem DateTime_decode_then_encode (self : DateTime) (source dest : list byte)
    (loc loc' : Z) (dt : datetime) :
  0 <= loc -> loc + 4 <= seq_len source ->
  DateTime_from_row_binary self source loc = Ok (dt, loc') ->
  epoch_seconds dt < 2 ^ 31 ->
  DateTime_to_row_binary dt dest = Ok (dest ++ slice source loc (loc + 4)).
Proof.
  intros Hloc Hfit Hdec Hearly.
  set (bs := slice source loc (loc + 4)).
  assert (Hlen : seq_len bs = 4) by (apply slice_length_full; lia).
  pose proof (slice_value_bound source loc 4 little ltac:(lia)) as Hb.
  fold bs in Hb. change (2 ^ (8 * 4)) with (2 ^ 32) in Hb.
  unfold DateTime_from_row_binary in Hdec. fold bs in Hdec.
  rewrite (fromtimestamp_uint32 _ _ Hb) in Hdec. cbn [bind] in Hdec.
  injection Hdec as <- _. cbn [epoch_seconds] in Hearly.
  unfold DateTime_to_row_binary. rewrite int_timestamp_whole.
  rewrite int_from_bytes_unsigned in *. cbn [in_order] in *.
  unfold int_to_bytes. change (4 <? 0) with false. cbv iota.
  change (8 * 4) with 32.
  destruct (Z.leb_spec (- 2 ^ 32) (2 * le_unsigned bs)); [|lia].
  destruct (Z.ltb_spec (2 * le_unsigned bs) (2 ^ 32)); [|lia].
  cbn [andb orb in_order]. rewrite Z.mod_small by lia.
  replace (Z.to_nat 4) with (List.length bs) by (unfold seq_len in Hlen; lia).
  rewrite le_bytes_le_unsigned. reflexivity.
Qed.

Lemma DateTime_decode_then_encode_witness :
  let self := {| DateTime_tzinfo := timezone_utc |} in
  let source := bytes_of [9; 0; 0; 0; 64] in
  let dt := {| epoch_seconds := 1073741824; microsecond := 0;
               dt_tzinfo := timezone_utc |} in
  0 <= 1 /\ 1 + 4 <= seq_len source
  /\ DateTime_from_row_binary self source 1 = Ok (dt, 5)
  /\ epoch_seconds dt < 2 ^ 31
  /\ DateTime_to_row_binary dt [x01] = Ok ([x01] ++ slice source 1 (1 + 4)).
Proof.
  cbv zeta.
  assert (H0 : 0 <= 1) by lia.
  assert (H1 : 1 + 4 <= seq_len (bytes_of [9; 0; 0; 0; 64]))
    by (cbv; discriminate).
  assert (H2 : DateTime_from_row_binary {| DateTime_tzinfo := timezone_utc |}
                 (bytes_of [9; 0; 0; 0; 64]) 1
               = Ok ({| epoch_seconds := 1073741824; microsecond := 0;
                        dt_tzinfo := timezone_utc |}, 5))
    by (vm_compute; reflexivity).
  assert (H3 : epoch_seconds {| epoch_seconds := 1073741824; microsecond := 0;
                                dt_tzinfo := timezone_utc |} < 2 ^ 31)
    by reflexivity.
  split; [exact H0|]. split; [exact H1|]. split; [exact H2|].
  split; [exact H3|].
  exact (DateTime_decode_then_encode _ _ [x01] 1 5 _ H0 H1 H2 H3).
Defined.

(** ** Time-zone arguments *)

Lemma py_slice_strip_ends {A : Type} (c d : A) (l : list A) :
  py_slice (c :: l ++ [d]) (Some 1) (Some (-1)) = l.
Proof.
  unfold py_slice, slice_index, seq_len. cbn [List.length].
  rewrite length_app. cbn [List.length].
  change (1 <? 0) with false. change (-1 <? 0) with true. cbv iota.
  rewrite Z.min_l by lia. rewrite Z.max_l by lia.
  change (Z.to_nat 1) with 1%nat. cbn [skipn].
  replace (Z.to_nat _) with (List.length l) by lia.
  rewrite firstn_app, Nat.sub_diag, firstn_all. cbn [firstn].
  apply app_nil_r.
Qed.

(** X25.  Both timestamp constructors take the zone name from a string argument
    by dropping its first and its last character, whatever these are, and
    look the rest up; a failed lookup fails the construction.  [DateTime]
    reads the first value, [DateTime64] the second, after the scale. *)
Theorem zone_name_is_argument_without_its_ends
    (pytz_timezone : string -> result tzinfo) (type_def : TypeDef.t)
    (c d : ascii) (zone : list ascii) (rest : list value) :
  let arg := VStr (string_of_list_ascii (c :: zone ++ [d])) in
  (TypeDef.values type_def = arg :: rest ->
   DateTime_init pytz_timezone type_def
   = (tz <- pytz_timezone (string_of_list_ascii zone) ;;
      Ok {| DateTime_tzinfo := tz |}))
  /\ (forall scale,
        TypeDef.values type_def = VInt scale :: arg :: rest -> 0 <= scale ->
        DateTime64_init pytz_timezone type_def
        = (tz <- pytz_timezone (string_of_list_ascii zone) ;;
           Ok {| DateTime64_name_suffix := TypeDef.arg_str type_def;
                 DateTime64_prec := IntPower (10 ^ scale);
                 DateTime64_tzinfo := tz |})).
Proof.
  cbv zeta.
  assert (Hstrip : str_slice (string_of_list_ascii (c :: zone ++ [d]))
                     (Some 1) (Some (-1)) = string_of_list_ascii zone).
  { unfold str_slice.
    now rewrite list_ascii_of_string_of_list_ascii, py_slice_strip_ends. }
  split.
  - intros Hv. unfold DateTime_init. rewrite Hv, Hstrip. reflexivity.
  - intros scale Hv Hs. unfold DateTime64_init, values_at. rewrite Hv.
    cbn [nth_error bind pow10].
    destruct (Z.ltb_spec scale 0); [lia|]. cbn [bind].
    replace (1 <? seq_len (VInt scale :: _ :: rest)) with true
      by (symmetry; apply Z.ltb_lt; unfold seq_len; cbn [List.length]; lia).
    cbn [nth_error bind]. rewrite Hstrip.
    destruct (pytz_timezone (string_of_list_ascii zone)); reflexivity.
Qed.

Lemma zone_name_is_argument_without_its_ends_witness :
  let pytz := fun zone : string =>
                if String.eqb zone "UTC" then Ok timezone_utc
                else Raise UnknownTimeZoneError in
  let td := type_def_of 0 [VInt 3; VStr "'UTC'"] in
  TypeDef.values td
  = [VInt 3; VStr (string_of_list_ascii
                     ("'"%char :: list_ascii_of_string "UTC" ++ ["'"%char]))]
  /\ 0 <= 3
  /\ DateTime64_init pytz td
     = Ok {| DateTime64_name_suffix := EmptyString;
             DateTime64_prec := IntPower 1000;
             DateTime64_tzinfo := timezone_utc |}.
Proof.
  cbv zeta.
  assert (H0 : 0 <= 3) by lia.
  split; [reflexivity|]. split; [exact H0|].
  exact (proj2 (zone_name_is_argument_without_its_ends
                  (fun zone : string =>
                     if String.eqb zone "UTC" then Ok timezone_utc
                     else Raise UnknownTimeZoneError)
                  (type_def_of 0 [VInt 3; VStr "'UTC'"])
                  "'"%char "'"%char (list_ascii_of_string "UTC") [])
           3 eq_refl H0).
Defined.
